(** * AI-Observability-Agent: incident lifecycle and action dispatch

  A shallow embedding of the webhook -> signal -> incident -> analysis ->
  action workflow of the agent ([main.py], [services/signal_detector.py],
  [services/ai_analyzer.py], [services/action_executor.py],
  [services/incident_manager.py], [models/incident.py]).

  Conventions of the embedding
  - Python [float] scores are rationals ([Q]); rounding is not modelled.
  - JSON-like payloads ([Dict[str, Any]]) are [Py.val] trees; a dict is an
    association list read by its first matching key.
  - Code that can raise returns [result]; [try/except] is a match on it.
  - Everything the process cannot decide by itself (HTTP responses, the
    random engines, the clock, fresh UUIDs) is an explicit argument. *)

From Stdlib Require Import ZArith QArith Qminmax Qround String Ascii List Bool Lia.
From stdpp Require Import base option list gmap strings pretty.

Set Warnings "-register-all".
Local Open Scope string_scope.

(* ===================================================================== *)
(** ** Python values, exceptions and string helpers                       *)
(* ===================================================================== *)

Module Py.

Inductive exc :=
| TypeError | KeyError | ValueError | AttributeError
| Exception (msg : string).

Inductive result (A : Type) :=
| Ok (a : A)
| Raise (e : exc).
Arguments Ok {A} a.
Arguments Raise {A} e.

Definition bind {A B} (r : result A) (k : A -> result B) : result B :=
  match r with
  | Ok a => k a
  | Raise e => Raise e
  end.

Definition is_ok {A} (r : result A) : bool :=
  match r with Ok _ => true | Raise _ => false end.

Inductive val :=
| VNone
| VBool (b : bool)
| VInt (z : Z)
| VFloat (q : Q)
| VStr (s : string)
| VList (l : list val)
| VDict (d : list (string * val)).

Definition dict := list (string * val).

(** [d.get(k)] / [d[k]] on a dict: the first binding of [k]. *)
Fixpoint lookup (k : string) (d : dict) : option val :=
  match d with
  | [] => None
  | (k', v) :: d' => if String.eqb k k' then Some v else lookup k d'
  end.

Definition has_key (k : string) (d : dict) : bool :=
  match lookup k d with Some _ => true | None => false end.

(** [d[k]]: [KeyError] when the key is missing. *)
Definition getitem (k : string) (d : dict) : result val :=
  match lookup k d with
  | Some v => Ok v
  | None => Raise KeyError
  end.

(** [d.get(k)] read as a string, [None] for a missing key or another type. *)
Definition get_str (k : string) (d : dict) : option string :=
  match lookup k d with
  | Some (VStr s) => Some s
  | _ => None
  end.

(** Truth value of a Python object ([if x:]). *)
Definition truthy (v : val) : bool :=
  match v with
  | VNone => false
  | VBool b => b
  | VInt z => negb (Z.eqb z 0)
  | VFloat q => negb (Qeq_bool q 0)
  | VStr s => negb (String.eqb s "")
  | VList l => match l with [] => false | _ => true end
  | VDict d => match d with [] => false | _ => true end
  end.

(** [prefix p s]: [s.startswith(p)]. *)
Fixpoint prefix (p s : string) : bool :=
  match p, s with
  | EmptyString, _ => true
  | String a p', String b s' => Ascii.eqb a b && prefix p' s'
  | String _ _, EmptyString => false
  end.

(** [contains p s]: [p in s] on strings. *)
Fixpoint contains (p s : string) : bool :=
  prefix p s ||
  match s with
  | EmptyString => false
  | String _ s' => contains p s'
  end.

(** [s.endswith("Z")] and [s[:-1]]. *)
Fixpoint endswith_Z (s : string) : bool :=
  match s with
  | EmptyString => false
  | String a EmptyString => Ascii.eqb a "Z"%char
  | String _ s' => endswith_Z s'
  end.

Fixpoint drop_last (s : string) : string :=
  match s with
  | EmptyString => EmptyString
  | String _ EmptyString => EmptyString
  | String a s' => String a (drop_last s')
  end.

(** ASCII part of [str.lower()]. *)
Definition lower_ascii (a : ascii) : ascii :=
  let n := nat_of_ascii a in
  if (65 <=? n)%nat && (n <=? 90)%nat then ascii_of_nat (n + 32) else a.

Fixpoint lower (s : string) : string :=
  match s with
  | EmptyString => EmptyString
  | String a s' => String (lower_ascii a) (lower s')
  end.

(** [s.upper()], ASCII part. *)
Definition upper_ascii (a : ascii) : ascii :=
  let n := nat_of_ascii a in
  if (97 <=? n)%nat && (n <=? 122)%nat then ascii_of_nat (n - 32) else a.

Fixpoint upper (s : string) : string :=
  match s with
  | EmptyString => EmptyString
  | String a s' => String (upper_ascii a) (upper s')
  end.

(** [s[:n]]. *)
Fixpoint take (n : nat) (s : string) : string :=
  match n, s with
  | O, _ => EmptyString
  | S n', String a s' => String a (take n' s')
  | S _, EmptyString => EmptyString
  end.

(** [field in data] for an arbitrary JSON value: key membership on a dict,
    substring on a string, element membership on a list, [TypeError] on a
    value that is not a container. *)
Definition contains_key (field : string) (data : val) : result bool :=
  match data with
  | VDict d => Ok (has_key field d)
  | VStr s => Ok (contains field s)
  | VList l =>
      Ok (existsb (fun v => match v with
                            | VStr s => String.eqb s field
                            | _ => false
                            end) l)
  | VNone | VBool _ | VInt _ | VFloat _ => Raise TypeError
  end.

(** [data[field]] with a string subscript: only a dict accepts it. *)
Definition subscript (field : string) (data : val) : result val :=
  match data with
  | VDict d => getitem field d
  | _ => Raise TypeError
  end.

(** [repr(v)] and [str(v)] of a JSON value. A nested string is quoted
    without escapes, and a float prints as the fraction that stands for it
    (floats are rationals here). *)
Fixpoint repr (v : val) : string :=
  match v with
  | VNone => "None"
  | VBool true => "True"
  | VBool false => "False"
  | VInt z => pretty z
  | VFloat q => pretty (Qnum q) ++ "/" ++ pretty (Zpos (Qden q))
  | VStr s => "'" ++ s ++ "'"
  | VList l =>
      "[" ++
      (fix items (l : list val) : string :=
         match l with
         | [] => ""
         | x :: l' =>
             match l' with
             | [] => repr x
             | _ => repr x ++ ", " ++ items l'
             end
         end) l ++ "]"
  | VDict d =>
      "{" ++
      (fix items (d : list (string * val)) : string :=
         match d with
         | [] => ""
         | (k, x) :: d' =>
             match d' with
             | [] => "'" ++ k ++ "': " ++ repr x
             | _ => "'" ++ k ++ "': " ++ repr x ++ ", " ++ items d'
             end
         end) d ++ "}"
  end.

Definition str (v : val) : string :=
  match v with
  | VStr s => s
  | _ => repr v
  end.

(** [s.title()]: every run of letters starts upper case and goes on lower
    case. *)
Definition is_alpha (a : ascii) : bool :=
  let n := nat_of_ascii a in
  ((65 <=? n)%nat && (n <=? 90)%nat) || ((97 <=? n)%nat && (n <=? 122)%nat).

Fixpoint title_acc (in_word : bool) (s : string) : string :=
  match s with
  | EmptyString => EmptyString
  | String a s' =>
      String (if in_word then lower_ascii a else upper_ascii a)
             (title_acc (is_alpha a) s')
  end.

Definition title (s : string) : string := title_acc false s.

(** [s.replace("_", " ")]. *)
Fixpoint replace_underscore (s : string) : string :=
  match s with
  | EmptyString => EmptyString
  | String a s' =>
      String (if Ascii.eqb a "_"%char then " "%char else a)
             (replace_underscore s')
  end.

(** [str(e)] of a caught exception; the interpreter's own message texts
    are abbreviated to the class name. *)
Definition exc_str (e : exc) : string :=
  match e with
  | TypeError => "TypeError"
  | KeyError => "KeyError"
  | ValueError => "ValueError"
  | AttributeError => "AttributeError"
  | Exception msg => msg
  end.

(** [f"{q:.0%}"]: the percentage rounded to an integer (half to even). *)
Definition percent0 (q : Q) : string :=
  let scaled := (q * 100)%Q in
  let n := Qfloor scaled in
  let rest := (scaled - inject_Z n)%Q in
  let up :=
    match Qcompare rest (1 # 2) with
    | Gt => true
    | Eq => Z.odd n
    | Lt => false
    end in
  pretty (if up then (n + 1)%Z else n) ++ "%".

(** [d.get(k)]: [None] for a missing key. *)
Definition get (k : string) (d : dict) : val :=
  match lookup k d with
  | Some v => v
  | None => VNone
  end.

(** [a or b]: the first operand when it is truthy, else the second. *)
Definition or_else (a b : val) : val := if truthy a then a else b.

(** [list(dict.fromkeys(xs))]: duplicates removed, first-seen order kept. *)
Fixpoint fromkeys_acc (seen xs : list string) : list string :=
  match xs with
  | [] => []
  | x :: xs' =>
      if existsb (String.eqb x) seen then fromkeys_acc seen xs'
      else x :: fromkeys_acc (x :: seen) xs'
  end.

Definition fromkeys (xs : list string) : list string := fromkeys_acc [] xs.

End Py.

#[global] Instance result_ret : MRet Py.result := @Py.Ok.
#[global] Instance result_bind : MBind Py.result := fun A B k r => Py.bind r k.

(* ===================================================================== *)
(** ** [datetime] and [datetime.fromisoformat]                            *)
(* ===================================================================== *)

Module Datetime.

(** A [datetime] value; [tzinfo] is the UTC offset in seconds of an aware
    value and [None] for a naive one. *)
Record t := mk {
  year : Z; month : Z; day : Z;
  hour : Z; minute : Z; second : Z; microsecond : Z;
  tzinfo : option Z
}.

Definition digit (a : ascii) : option Z :=
  let n := nat_of_ascii a in
  if (48 <=? n)%nat && (n <=? 57)%nat then Some (Z.of_nat (n - 48)) else None.

(** [int(s)] for a string of decimal digits ([None] stands for ValueError). *)
Fixpoint digits_acc (s : string) (acc : Z) : option Z :=
  match s with
  | EmptyString => Some acc
  | String a s' =>
      match digit a with
      | Some d => digits_acc s' (10 * acc + d)
      | None => None
      end
  end.

Definition int_of (s : string) : option Z :=
  match s with
  | EmptyString => None
  | _ => digits_acc s 0
  end.

(** [s[n:]]. *)
Fixpoint drop (n : nat) (s : string) : string :=
  match n, s with
  | O, _ => s
  | S n', String _ s' => drop n' s'
  | S _, EmptyString => EmptyString
  end.

Definition slice (i n : nat) (s : string) : string := Py.take n (drop i s).

Definition is_leap (y : Z) : bool :=
  ((y mod 4 =? 0) && negb (y mod 100 =? 0) || (y mod 400 =? 0))%Z.

Definition days_in_month (y m : Z) : Z :=
  if (m =? 2)%Z then (if is_leap y then 29 else 28)%Z
  else if ((m =? 4) || (m =? 6) || (m =? 9) || (m =? 11))%Z then 30%Z
  else 31%Z.

(** The range checks of the [datetime] constructor. *)
Definition valid (d : t) : bool :=
  ((1 <=? year d) && (year d <=? 9999) &&
   (1 <=? month d) && (month d <=? 12) &&
   (1 <=? day d) && (day d <=? days_in_month (year d) (month d)) &&
   (0 <=? hour d) && (hour d <=? 23) &&
   (0 <=? minute d) && (minute d <=? 59) &&
   (0 <=? second d) && (second d <=? 59) &&
   (0 <=? microsecond d) && (microsecond d <=? 999999) &&
   match tzinfo d with
   | None => true
   | Some off => (-86400 <? off) && (off <? 86400)
   end)%Z.

(** Position of the first ['-'], else of the first ['+'], in a time string
    (the library looks for a minus sign before it looks for a plus sign). *)
Fixpoint find (c : ascii) (s : string) : option nat :=
  match s with
  | EmptyString => None
  | String a s' =>
      if Ascii.eqb a c then Some O
      else match find c s' with Some n => Some (S n) | None => None end
  end.

Definition tz_pos (s : string) : option nat :=
  match find "-"%char s with
  | Some n => Some n
  | None => find "+"%char s
  end.

(** [HH[:MM[:SS[.fff[fff]]]]] as (hours, minutes, seconds, microseconds). *)
Definition parse_hh_mm_ss_ff (s : string) : option (Z * Z * Z * Z) :=
  let field i := int_of (slice i 2 s) in
  let sep i c := String.eqb (slice i 1 s) (String c EmptyString) in
  let len := String.length s in
  match field 0%nat with
  | None => None
  | Some hh =>
      if (len =? 2)%nat then Some (hh, 0, 0, 0)%Z
      else if negb (sep 2%nat ":"%char) then None
      else match field 3%nat with
      | None => None
      | Some mm =>
          if (len =? 5)%nat then Some (hh, mm, 0, 0)%Z
          else if negb (sep 5%nat ":"%char) then None
          else match field 6%nat with
          | None => None
          | Some ss =>
              if (len =? 8)%nat then Some (hh, mm, ss, 0)%Z
              else if negb (sep 8%nat "."%char) then None
              else if (len =? 12)%nat then
                match int_of (drop 9 s) with
                | Some ms => Some (hh, mm, ss, ms * 1000)%Z
                | None => None
                end
              else if (len =? 15)%nat then
                match int_of (drop 9 s) with
                | Some us => Some (hh, mm, ss, us)%Z
                | None => None
                end
              else None
          end
      end
  end.

(** The time part with its optional UTC offset: [+HH:MM] or [+HH:MM:SS]. *)
Definition parse_time (s : string)
  : option (Z * Z * Z * Z * option Z) :=
  match tz_pos s with
  | None =>
      match parse_hh_mm_ss_ff s with
      | Some (hh, mm, ss, us) => Some (hh, mm, ss, us, None)
      | None => None
      end
  | Some p =>
      let tzstr := drop (S p) s in
      let sign := if String.eqb (slice p 1 s) "-" then (-1)%Z else 1%Z in
      if negb ((String.length tzstr =? 5)%nat || (String.length tzstr =? 8)%nat)
      then None
      else
        match parse_hh_mm_ss_ff (Py.take p s), parse_hh_mm_ss_ff tzstr with
        | Some (hh, mm, ss, us), Some (th, tm, ts, _) =>
            Some (hh, mm, ss, us, Some (sign * (th * 3600 + tm * 60 + ts))%Z)
        | _, _ => None
        end
  end.

(** [datetime.fromisoformat]: [YYYY-MM-DD], optionally followed by one
    separator character and a time; [None] stands for ValueError. *)
Definition fromisoformat (s : string) : option t :=
  match int_of (slice 0 4 s), int_of (slice 5 2 s), int_of (slice 8 2 s) with
  | Some y, Some m, Some d =>
      if negb (String.eqb (slice 4 1 s) "-" && String.eqb (slice 7 1 s) "-")
      then None
      else
        let finish hh mm ss us tz :=
          let r := mk y m d hh mm ss us tz in
          if valid r then Some r else None in
        if (String.length s =? 10)%nat then finish 0%Z 0%Z 0%Z 0%Z None
        else
          match parse_time (drop 11 s) with
          | Some (hh, mm, ss, us, tz) => finish hh mm ss us tz
          | None => None
          end
  | _, _, _ => None
  end.

End Datetime.

(* ===================================================================== *)
(** ** Data model ([models/incident.py])                                  *)
(* ===================================================================== *)

Inductive IncidentSeverity := LOW | MEDIUM | HIGH | CRITICAL.

Inductive IncidentStatus := OPEN | IN_PROGRESS | RESOLVED | CLOSED | FAILED.

Definition severity_value (s : IncidentSeverity) : string :=
  match s with
  | LOW => "low" | MEDIUM => "medium" | HIGH => "high" | CRITICAL => "critical"
  end.

Definition status_value (s : IncidentStatus) : string :=
  match s with
  | OPEN => "open" | IN_PROGRESS => "in_progress" | RESOLVED => "resolved"
  | CLOSED => "closed" | FAILED => "failed"
  end.

(** [IncidentStatus(text)]: the member with that value, else ValueError. *)
Definition status_of_value (text : string) : Py.result IncidentStatus :=
  if String.eqb text "open" then Py.Ok OPEN
  else if String.eqb text "in_progress" then Py.Ok IN_PROGRESS
  else if String.eqb text "resolved" then Py.Ok RESOLVED
  else if String.eqb text "closed" then Py.Ok CLOSED
  else if String.eqb text "failed" then Py.Ok FAILED
  else Py.Raise Py.ValueError.

#[global] Instance IncidentStatus_eq_dec : EqDecision IncidentStatus.
Proof. solve_decision. Defined.

#[global] Instance IncidentSeverity_eq_dec : EqDecision IncidentSeverity.
Proof. solve_decision. Defined.

(** The wall-clock default fields ([created_at], [executed_at],
    [analysis_duration]) are left out of the records below. *)

Module AIAnalysis.
Record t := mk {
  root_cause : string;
  confidence : Q;
  suggested_actions : list string;
  related_incidents : list string;
  risk_level : string
}.

(** [confidence: float = Field(ge=0.0, le=1.0)]. *)
Definition validates (c : Q) : bool := Qle_bool 0 c && Qle_bool c 1.
End AIAnalysis.

Module ActionTaken.
Record t := mk {
  action_type : string;
  description : string;
  status : string;
  details : option string;
  result : option Py.dict
}.
End ActionTaken.

(** What is found in [Incident.actions_taken]: the executor appends
    [ActionTaken] objects, the incident manager and the PR monitor append
    plain dicts. *)
Inductive ActionEntry :=
| ActionObj (a : ActionTaken.t)
| ActionDict (d : Py.dict).

(** The [status] field of an entry, when it has one. *)
Definition entry_status (e : ActionEntry) : option Py.val :=
  match e with
  | ActionObj a => Some (Py.VStr (ActionTaken.status a))
  | ActionDict d => Py.lookup "status" d
  end.

Module Signal.
Record t := mk {
  source : string;
  event_type : string;
  description : string;
  severity : Q;
  is_anomaly : bool;
  raw_data : Py.dict
}.
End Signal.

Module Incident.
Record t := mk {
  id : string;
  title : string;
  description : string;
  severity : IncidentSeverity;
  status : IncidentStatus;
  source : string;
  raw_data : Py.dict;
  detected_at : Datetime.t;
  resolved_at : option Datetime.t;
  ai_analysis : option AIAnalysis.t;
  root_cause : option string;
  confidence_score : option Q;
  suggested_actions : list string;
  ml_insights : list string;
  copado_insights : list string;
  quantum_insights : list string;
  actions_taken : list ActionEntry
}.

(** [incident.status = s] *)
Definition set_status (s : IncidentStatus) (i : t) : t :=
  mk (id i) (title i) (description i) (severity i) s (source i) (raw_data i)
     (detected_at i) (resolved_at i) (ai_analysis i) (root_cause i)
     (confidence_score i) (suggested_actions i) (ml_insights i)
     (copado_insights i) (quantum_insights i) (actions_taken i).

(** [incident.resolved_at = now] *)
Definition set_resolved_at (now : Datetime.t) (i : t) : t :=
  mk (id i) (title i) (description i) (severity i) (status i) (source i)
     (raw_data i) (detected_at i) (Some now) (ai_analysis i) (root_cause i)
     (confidence_score i) (suggested_actions i) (ml_insights i)
     (copado_insights i) (quantum_insights i) (actions_taken i).

(** [incident.root_cause = rc; incident.confidence_score = c] *)
Definition set_root_cause (rc : string) (c : Q) (i : t) : t :=
  mk (id i) (title i) (description i) (severity i) (status i) (source i)
     (raw_data i) (detected_at i) (resolved_at i) (ai_analysis i) (Some rc)
     (Some c) (suggested_actions i) (ml_insights i)
     (copado_insights i) (quantum_insights i) (actions_taken i).

(** [incident.suggested_actions = acts] together with the three insight
    lists. *)
Definition set_suggestions (acts ml cop qu : list string) (i : t) : t :=
  mk (id i) (title i) (description i) (severity i) (status i) (source i)
     (raw_data i) (detected_at i) (resolved_at i) (ai_analysis i)
     (root_cause i) (confidence_score i) acts ml cop qu (actions_taken i).

(** [incident.actions_taken.extend(entries)] *)
Definition extend_actions (entries : list ActionEntry) (i : t) : t :=
  mk (id i) (title i) (description i) (severity i) (status i) (source i)
     (raw_data i) (detected_at i) (resolved_at i) (ai_analysis i)
     (root_cause i) (confidence_score i) (suggested_actions i) (ml_insights i)
     (copado_insights i) (quantum_insights i) (actions_taken i ++ entries).
End Incident.

(** The webhook request body ([class WebhookPayload]). *)
Module WebhookPayload.
Record t := mk {
  source : string;
  event_type : string;
  data : Py.dict
}.
End WebhookPayload.

(* ===================================================================== *)
(** ** Signal detection ([services/signal_detector.py])                   *)
(* ===================================================================== *)

Module SignalDetector.

(** [any(pattern in text for pattern in patterns)] *)
Definition any_in (patterns : list string) (text : string) : bool :=
  existsb (fun p => Py.contains p text) patterns.

(** [d.get(key, "").lower()]: AttributeError unless the value is a string. *)
Definition get_lower (key : string) (d : Py.dict) : Py.result (string * string) :=
  match Py.lookup key d with
  | None => Py.Ok ("", "")
  | Some (Py.VStr s) => Py.Ok (s, Py.lower s)
  | Some _ => Py.Raise Py.AttributeError
  end.

(** The loop over [commits] of a push event: the first commit whose message
    carries a keyword decides; [None] when the loop ends without a hit. *)
Fixpoint scan_commits (commits : list Py.val) : Py.result (option string) :=
  match commits with
  | [] => Py.Ok None
  | Py.VDict commit :: rest =>
      '(message, lowered) ← get_lower "message" commit;
      if any_in ["fix"; "hotfix"; "urgent"; "critical"] lowered
      then Py.Ok (Some ("Urgent commit detected: " ++
                        match Py.lookup "message" commit with
                        | Some v => Py.str v
                        | None => "None"
                        end))
      else scan_commits rest
  | _ :: _ => Py.Raise Py.AttributeError
  end.

(** [for commit in commits] over whatever [event_data.get("commits", [])]
    holds: a list is walked, an empty string or dict gives no iteration, a
    non-empty one yields strings (no [.get]), anything else is not iterable. *)
Definition iterate_commits (v : option Py.val) : Py.result (option string) :=
  match v with
  | None => Py.Ok None
  | Some (Py.VList l) => scan_commits l
  | Some (Py.VStr s) =>
      if String.eqb s "" then Py.Ok None else Py.Raise Py.AttributeError
  | Some (Py.VDict d) =>
      match d with [] => Py.Ok None | _ => Py.Raise Py.AttributeError end
  | Some _ => Py.Raise Py.TypeError
  end.

Definition analyze_git_event (payload : WebhookPayload.t) : Py.result Signal.t :=
  let event_data := WebhookPayload.data payload in
  let event_type := WebhookPayload.event_type payload in
  let signal is_anomaly severity description :=
    Signal.mk "git" event_type description severity is_anomaly event_data in
  let quiet := signal false 0%Q ("Git " ++ event_type ++ " event") in
  if String.eqb event_type "push" then
    hit ← iterate_commits (Py.lookup "commits" event_data);
    match hit with
    | Some description => Py.Ok (signal true 0.6%Q description)
    | None => Py.Ok quiet
    end
  else if String.eqb event_type "pull_request" then
    match Py.lookup "pull_request" event_data with
    | None => Py.Ok quiet
    | Some (Py.VDict pr_data) =>
        '(title, lowered) ← get_lower "title" pr_data;
        if any_in ["fix"; "bug"; "critical"; "hotfix"] lowered
        then Py.Ok (signal true 0.5%Q
                      ("Bug fix PR detected: " ++
                       match Py.lookup "title" pr_data with
                       | Some v => Py.str v
                       | None => "None"
                       end))
        else Py.Ok quiet
    | Some _ => Py.Raise Py.AttributeError
    end
  else if String.eqb event_type "hotfix_commit" then
    let commit_message :=
      match Py.lookup "commit_message" event_data with
      | Some v => Py.str v
      | None => ""
      end in
    Py.Ok (signal true 0.8%Q ("Critical hotfix commit: " ++ commit_message))
  else Py.Ok quiet.

(** [severity_map.get(event_type, 0.7)] *)
Definition severity_map (event_type : string) : Q :=
  if String.eqb event_type "deployment_failed" then 0.9%Q
  else if String.eqb event_type "test_failed" then 0.7%Q
  else if String.eqb event_type "build_failed" then 0.8%Q
  else if String.eqb event_type "pipeline_failed" then 0.8%Q
  else 0.7%Q.

Definition analyze_copado_event (payload : WebhookPayload.t) : Py.result Signal.t :=
  let event_data := WebhookPayload.data payload in
  let event_type := WebhookPayload.event_type payload in
  let description := "Copado " ++ Py.replace_underscore event_type in
  let description :=
    match Py.lookup "error_message" event_data with
    | Some v => description ++ ": " ++ Py.str v
    | None => description
    end in
  Py.Ok (Signal.mk "copado" event_type description (severity_map event_type)
           true event_data).

Definition risky_operations : list string :=
  ["delete_user"; "change_permission_set"; "modify_profile";
   "delete_custom_object"; "change_org_settings"; "audit_alert";
   "permission_change"].

(** [v > n] for a JSON value against an integer literal. *)
Definition gt_int (v : Py.val) (n : Z) : Py.result bool :=
  match v with
  | Py.VInt z => Py.Ok (n <? z)%Z
  | Py.VFloat q => Py.Ok (negb (Qle_bool q (inject_Z n)))
  | Py.VBool b => Py.Ok (n <? (if b then 1 else 0))%Z
  | _ => Py.Raise Py.TypeError
  end.

(** The closing test of the source ([event_type == "audit_alert" and not
    is_anomaly]) never fires: an audit_alert event has already been flagged
    by one of the two branches before it. *)
Definition analyze_salesforce_event (payload : WebhookPayload.t)
  : Py.result Signal.t :=
  let event_data := WebhookPayload.data payload in
  let event_type := WebhookPayload.event_type payload in
  let signal is_anomaly severity description :=
    Signal.mk "salesforce" event_type description severity is_anomaly
              event_data in
  let description := "Salesforce " ++ event_type in
  let operation :=
    match Py.lookup "operation" event_data with
    | Some v => v
    | None =>
        match Py.lookup "alert_type" event_data with
        | Some v => v
        | None => Py.VStr ""
        end
    end in
  let action := Py.lookup "action" event_data in
  let bulk_delete :=
    let records_count :=
      match Py.lookup "records_count" event_data with
      | Some v => v
      | None => Py.VInt 0
      end in
    over100 ← gt_int records_count 100;
    if (over100 : bool) then Py.Ok (signal true 0.8%Q description)
    else
      over10 ← gt_int records_count 10;
      if (over10 : bool) then Py.Ok (signal true 0.7%Q description)
      else Py.Ok (signal true 0.6%Q description) in
  match action with
  | Some (Py.VStr "DELETE") => bulk_delete
  | _ =>
      match operation with
      | Py.VStr op =>
          let lowered := Py.lower op in
          if Py.contains "delete" lowered then bulk_delete
          else if existsb (fun risky => Py.contains risky lowered)
                          risky_operations
                  || String.eqb event_type "audit_alert"
          then
            let user :=
              match Py.lookup "username" event_data with
              | Some v => Py.str v
              | None => "Unknown user"
              end in
            let timestamp :=
              match Py.lookup "timestamp" event_data with
              | Some v => v
              | None => Py.VStr ""
              end in
            night ←
              (if Py.truthy timestamp then
                 h2 ← Py.contains_key "02:" timestamp;
                 if (h2 : bool) then Py.Ok true
                 else
                   h3 ← Py.contains_key "03:" timestamp;
                   if (h3 : bool) then Py.Ok true
                   else Py.contains_key "01:" timestamp
               else Py.Ok false);
            Py.Ok (signal true 0.7%Q
                     ("Risky Salesforce operation: " ++ op ++
                      " permissions by " ++ user ++
                      (if (night : bool) then " during business hours" else "")))
          else Py.Ok (signal false 0%Q description)
      | _ => Py.Raise Py.AttributeError
      end
  end.

End SignalDetector.

(* ===================================================================== *)
(** ** Analysis ([services/ai_analyzer.py])                               *)
(* ===================================================================== *)

Module AIAnalyzer.

(** The result dicts that [_combine_analyses] reads through
    [.get(key, default)]: a missing key is [None]. *)
Record AIResult := {
  ai_root_cause : option string;
  ai_confidence : option Q;
  ai_suggested_actions : option (list string);
  ai_related_incidents : option (list string)
}.

Record PatternResult := { pattern_confidence : option Q }.

Record PredictionResult := {
  prediction_confidence : option Q;
  prevention_suggestions : option (list string)
}.

(** [similar_ids] are the incident ids that the loop over
    [similar_incidents] extracts. *)
Record SimilarityResult := {
  similarity_confidence : option Q;
  similar_ids : list string
}.

Record Ensemble := {
  ens_root_cause : string;
  ens_confidence : Q;
  ens_suggested_actions : list string;
  ens_related_incidents : list string
}.

Definition weights_ai : Q := 0.4.
Definition weights_pattern : Q := 0.25.
Definition weights_prediction : Q := 0.2.
Definition weights_similarity : Q := 0.15.

Definition combined_confidence (ai : AIResult) (pat : PatternResult)
    (pred : PredictionResult) (sim : SimilarityResult) : Q :=
  (default 0.5 (ai_confidence ai) * weights_ai +
   default 0.3 (pattern_confidence pat) * weights_pattern +
   default 0.6 (prediction_confidence pred) * weights_prediction +
   default 0.3 (similarity_confidence sim) * weights_similarity)%Q.

Definition _combine_analyses (ai_result : AIResult) (pattern_result : PatternResult)
    (prediction_result : PredictionResult) (similarity_result : SimilarityResult)
  : Ensemble :=
  let all_actions : list string :=
    (default [] (ai_suggested_actions ai_result) ++
     default [] (prevention_suggestions prediction_result))%list in
  let unique_actions := Py.fromkeys all_actions in
  let related_incidents : list string :=
    (default [] (ai_related_incidents ai_result) ++
     similar_ids similarity_result)%list in
  {| ens_root_cause :=
       default "Multi-factor analysis completed" (ai_root_cause ai_result);
     ens_confidence :=
       Qmin 0.95 (combined_confidence ai_result pattern_result
                    prediction_result similarity_result);
     ens_suggested_actions := firstn 8 unique_actions;
     ens_related_incidents := firstn 5 related_incidents |}.

(** [_predict_incident_impact]: the prevention suggestions depend on the
    source; the dict it returns has no [confidence] key. *)
Definition _predict_incident_impact (incident : Incident.t) : PredictionResult :=
  let source := Incident.source incident in
  {| prediction_confidence := None;
     prevention_suggestions := Some (
       if String.eqb source "copado" then
         ["Implement pre-deployment validation checks";
          "Add automated rollback triggers";
          "Enhance test coverage for critical paths"]
       else if String.eqb source "git" then
         ["Implement mandatory code reviews";
          "Add pre-commit hooks for validation";
          "Set up branch protection rules"]
       else if String.eqb source "salesforce" then
         ["Implement field validation rules";
          "Add audit trail monitoring";
          "Set up permission monitoring"]
       else []) |}.

(** [_fallback_analysis]: the rule-based analysis used when the remote call
    is unavailable. *)
Definition _fallback_analysis (incident : Incident.t) : AIAnalysis.t :=
  let incident_text :=
    Py.lower (Incident.description incident ++ " " ++
              Py.str (Py.VDict (Incident.raw_data incident))) in
  let has text := Py.contains text incident_text in
  let source := Incident.source incident in
  let analysis root_cause confidence suggested_actions :=
    AIAnalysis.mk root_cause confidence suggested_actions [] "medium" in
  if String.eqb source "copado" then
    if has "test_failed" || has "test failure" then
      let suggested_actions :=
        ["Review failed test logs and error details";
         "Check recent code changes in trigger logic";
         "Verify field validation rules";
         "Run regression tests on similar components"] in
      if has "required_field_missing" then
        analysis "Fallback analysis: Missing required field validation in Account trigger"
                 0.87%Q suggested_actions
      else if has "element not found" then
        analysis "Fallback analysis: UI element selector changed in recent deployment"
                 0.85%Q suggested_actions
      else
        analysis "Fallback analysis: Test failure in CI/CD pipeline - validation error"
                 0.78%Q suggested_actions
    else if has "deployment_failed" || has "deployment failure" then
      analysis "Fallback analysis: Deployment validation failed - missing required metadata fields"
               0.92%Q
               ["Check deployment logs for validation errors";
                "Verify metadata field requirements";
                "Review target environment configuration";
                "Trigger automatic rollback if critical"]
    else if has "build_failed" then
      analysis "Fallback analysis: Build compilation error in CI/CD pipeline"
               0.88%Q
               ["Review build logs for compilation errors";
                "Check recent code changes";
                "Verify dependencies and imports";
                "Run local build to reproduce issue"]
    else
      analysis "Fallback analysis: Copado CI/CD pipeline issue detected"
               0.80%Q
               ["Review Copado pipeline logs";
                "Check environment configuration";
                "Verify user permissions and access"]
  else if String.eqb source "git" then
    analysis "Fallback analysis: Git repository change detected with potential risk"
             0.6%Q
             ["Review recent commits and changes";
              "Run regression tests on affected modules";
              "Consider rollback if critical";
              "Add monitoring alerts for similar issues"]
  else if String.eqb source "salesforce" then
    analysis "Fallback analysis: Admin user updated profile permissions during maintenance"
             0.78%Q
             ["Check Salesforce audit trail for permission changes";
              "Review recent configuration modifications";
              "Verify data integrity and access controls";
              "Document approved maintenance activities"]
  else
    analysis "Fallback analysis: Configuration or deployment issue detected"
             0.75%Q [].

(** What one run of [analyze_incident] obtains from outside the function:
    the outcome of the remote call [_call_copado_ai] and the results of the
    history-based pattern and similarity searches. *)
Record Remote := {
  call_copado_ai : Py.result AIResult;
  pattern_analysis : PatternResult;
  similarity_analysis : SimilarityResult
}.

(** [analyze_incident]: an exception of the remote call is caught and
    answered with the fallback analysis, and so is any other exception of
    the body (here: the range validation of [AIAnalysis.confidence]). *)
Definition analyze_incident (remote : Remote) (incident : Incident.t)
  : AIAnalysis.t :=
  let prediction_result := _predict_incident_impact incident in
  match call_copado_ai remote with
  | Py.Raise _ => _fallback_analysis incident
  | Py.Ok ai_analysis =>
      let ensemble_result :=
        _combine_analyses ai_analysis (pattern_analysis remote)
                          prediction_result (similarity_analysis remote) in
      if AIAnalysis.validates (ens_confidence ensemble_result) then
        AIAnalysis.mk (ens_root_cause ensemble_result)
                      (ens_confidence ensemble_result)
                      (ens_suggested_actions ensemble_result)
                      (ens_related_incidents ensemble_result)
                      "medium"
      else _fallback_analysis incident
  end.

End AIAnalyzer.

(* ===================================================================== *)
(** ** Action execution ([services/action_executor.py])                   *)
(* ===================================================================== *)

Module ActionExecutor.

(** Outcome of one HTTP request: a response with its status code and the
    outcome of reading its JSON body, or a client exception. *)
Inductive http :=
| Response (status : Z) (json : Py.result Py.dict)
| Failure (e : Py.exc).

(** What one run of the executor obtains from outside: its configuration
    (tokens read from the environment) and the outcome of every external
    call it makes. *)
Record Outside := {
  create_user_story : Py.result Py.dict;
  github_token : bool;
  github_comment_post : http;
  slack_webhook : bool;
  slack_post : http;
  rollback_post : http;
  get_issue_key_from_incident_id : Py.result (option string);
  update_issue_status : Py.result Py.dict
}.

Definition jira_browse : string :=
  "https://kartheekdasari1998.atlassian.net/browse/".

Definition _map_severity_to_priority (severity : string) : string :=
  if String.eqb severity "low" then "Low"
  else if String.eqb severity "medium" then "Medium"
  else if String.eqb severity "high" then "High"
  else if String.eqb severity "critical" then "Highest"
  else "Medium".

Definition _create_demo_user_story (incident : Incident.t)
    (analysis : AIAnalysis.t) (error_info : option string) : ActionTaken.t :=
  let story_id := "US-" ++ Py.upper (Py.take 8 (Incident.id incident)) in
  let confidence := Py.percent0 (AIAnalysis.confidence analysis) in
  let details_text :=
    "Demo user story " ++ story_id ++ " created for incident " ++
    Incident.title incident ++ " with " ++ confidence ++ " confidence" in
  let details_text :=
    match error_info with
    | Some info =>
        if String.eqb info "" then details_text
        else "Jira API error (" ++ info ++ "), fallback to demo mode: " ++
             details_text
    | None => details_text
    end in
  ActionTaken.mk
    "jira_user_story"
    ("Jira user story created: <a href='" ++ jira_browse ++ story_id ++
     "' target='_blank'>" ++ story_id ++ "</a>")
    "success"
    (Some details_text)
    (Some [("user_story_id", Py.VStr story_id);
           ("title", Py.VStr ("[INCIDENT] " ++ Incident.title incident));
           ("priority", Py.VStr (_map_severity_to_priority
                                   (severity_value (Incident.severity incident))));
           ("status", Py.VStr "Draft");
           ("url", Py.VStr (jira_browse ++ story_id));
           ("description", Py.VStr ("Fallback mode - AI-detected incident with " ++
                                    confidence ++ " confidence"))]).

(** The body of the [try] of [_create_jira_user_story] once the creator has
    answered with [result] and [result['success']] is true: every
    [result[...]] subscript can raise KeyError. The mapping is written
    before the other keys are read. *)
Definition jira_story_action (incident : Incident.t) (result : Py.dict)
    (mapping : gmap string Py.val)
  : gmap string Py.val * Py.result ActionTaken.t :=
  match Py.getitem "issue_key" result with
  | Py.Raise e => (mapping, Py.Raise e)
  | Py.Ok issue_key =>
      let mapping := <[Incident.id incident := issue_key]> mapping in
      (mapping,
       issue_url ← Py.getitem "issue_url" result;
       summary ← Py.getitem "summary" result;
       priority ← Py.getitem "priority" result;
       description ← Py.getitem "description" result;
       Py.Ok (ActionTaken.mk
                "jira_user_story"
                ("Jira user story created: <a href='" ++ Py.str issue_url ++
                 "' target='_blank'>" ++ Py.str issue_key ++ "</a>")
                "success"
                (Some ("Successfully created Jira user story " ++
                       Py.str issue_key ++ " for incident " ++
                       Incident.title incident))
                (Some [("issue_key", issue_key);
                       ("issue_url", issue_url);
                       ("summary", summary);
                       ("priority", priority);
                       ("description", description);
                       ("initial_status",
                        default (Py.VStr "To Do")
                                (Py.lookup "initial_status" result))])))
  end.

Definition _create_jira_user_story (out : Outside)
    (mapping : gmap string Py.val) (incident : Incident.t)
    (analysis : AIAnalysis.t) : gmap string Py.val * ActionTaken.t :=
  match create_user_story out with
  | Py.Raise e =>
      (mapping, _create_demo_user_story incident analysis (Some (Py.exc_str e)))
  | Py.Ok result =>
      match Py.getitem "success" result with
      | Py.Raise e =>
          (mapping,
           _create_demo_user_story incident analysis (Some (Py.exc_str e)))
      | Py.Ok success =>
          if Py.truthy success then
            match jira_story_action incident result mapping with
            | (mapping, Py.Ok action) => (mapping, action)
            | (mapping, Py.Raise e) =>
                (mapping,
                 _create_demo_user_story incident analysis
                                         (Some (Py.exc_str e)))
            end
          else
            (mapping,
             _create_demo_user_story incident analysis (Some "API failure"))
      end
  end.

(** [_extract_pr_info]: the repository and the PR number, or [None]; every
    exception inside is swallowed. *)
Definition _extract_pr_info (raw_data : Py.dict) : option (string * string) :=
  match Py.lookup "pull_request" raw_data with
  | Some (Py.VDict pr) =>
      match Py.lookup "repository" raw_data with
      | None => Some ("None", Py.str (default Py.VNone (Py.lookup "number" pr)))
      | Some (Py.VDict repository) =>
          Some (Py.str (default Py.VNone (Py.lookup "full_name" repository)),
                Py.str (default Py.VNone (Py.lookup "number" pr)))
      | Some _ => None
      end
  | Some _ => None
  | None =>
      match Py.lookup "pr_number" raw_data, Py.lookup "repo" raw_data with
      | Some pr_number, Some repo => Some (Py.str repo, Py.str pr_number)
      | _, _ => None
      end
  end.

Definition _post_github_comment (out : Outside) (incident : Incident.t)
    (analysis : AIAnalysis.t) : ActionTaken.t :=
  match _extract_pr_info (Incident.raw_data incident) with
  | None =>
      ActionTaken.mk "github_comment" "No PR information found in incident data"
        "skipped"
        (Some "Unable to extract PR number or repository from incident") None
  | Some (repo, pr_number) =>
      let failed details result :=
        ActionTaken.mk "github_comment" "Failed to post GitHub comment"
          "failed" (Some details) (Some result) in
      match github_comment_post out with
      | Response status json =>
          if (status =? 201)%Z then
            match json with
            | Py.Ok result =>
                ActionTaken.mk "github_comment"
                  ("Posted comment on PR #" ++ pr_number ++
                   " and added 'ai-analyzed' label")
                  "success"
                  (Some ("Comment posted successfully with ID " ++
                         Py.str (Py.get "id" result)))
                  (Some [("comment_id", Py.get "id" result);
                         ("url", Py.get "html_url" result);
                         ("label_added", Py.VStr "ai-analyzed")])
            | Py.Raise e =>
                failed ("Exception: " ++ Py.exc_str e)
                       [("error", Py.VStr (Py.exc_str e))]
            end
          else
            (* the text of the error response is not modelled *)
            failed ("HTTP " ++ pretty status ++ ": ") [("error", Py.VStr "")]
      | Failure e =>
          failed ("Exception: " ++ Py.exc_str e)
                 [("error", Py.VStr (Py.exc_str e))]
      end
  end.

Definition slack_link : string :=
  "<a href='https://app.slack.com/client/T09DB218CAE' target='_blank'>".

Definition _send_slack_notification (out : Outside) (incident : Incident.t)
    (analysis : AIAnalysis.t) (jira_story_id jira_story_url : Py.val)
  : ActionTaken.t :=
  let failed result :=
    ActionTaken.mk "slack_notification"
      (slack_link ++ "Failed to send Slack notification</a>")
      "failed" None (Some result) in
  match slack_post out with
  | Response status json =>
      if (status =? 200)%Z then
        ActionTaken.mk "slack_notification"
          ("Slack notification sent for incident " ++ slack_link ++
           Incident.id incident ++ "</a>")
          "success" None
          (Some [("jira_story_linked", jira_story_id);
                 ("jira_url", jira_story_url);
                 ("slack_ts",
                  match json with
                  | Py.Ok response_data => Py.get "ts" response_data
                  | Py.Raise _ => Py.VNone
                  end)])
      else failed [("status_code", Py.VInt status)]
  | Failure e => failed [("error", Py.VStr (Py.exc_str e))]
  end.

Definition _trigger_rollback (out : Outside) (incident : Incident.t)
    (analysis : AIAnalysis.t) : ActionTaken.t :=
  let failed result :=
    ActionTaken.mk "automated_rollback" "Failed to trigger rollback"
      "failed" None (Some result) in
  match rollback_post out with
  | Response status json =>
      if (status =? 200)%Z then
        match json with
        | Py.Ok result =>
            ActionTaken.mk "automated_rollback" "Triggered automated rollback"
              "success" None
              (Some [("rollback_id", Py.get "id" result)])
        | Py.Raise e => failed [("error", Py.VStr (Py.exc_str e))]
        end
      else failed [("status_code", Py.VInt status)]
  | Failure e => failed [("error", Py.VStr (Py.exc_str e))]
  end.

(** [execute_actions]: ticket, comment, chat notification and rollback in
    that order. The only exception that can leave it comes from
    ["atlassian.net" not in jira_story_url] on a URL that is no container. *)
Definition execute_actions (out : Outside) (mapping : gmap string Py.val)
    (incident : Incident.t) (analysis : AIAnalysis.t)
  : gmap string Py.val * Py.result (list ActionTaken.t) :=
  (* 1. Jira user story *)
  let '(mapping, jira_action) :=
    _create_jira_user_story out mapping incident analysis in
  let actions_taken := [jira_action] in
  (* the branch taken when the ticket action is not a success with a
     result; its last lines store no mapping, as its result has no
     [issue_key] *)
  let fallback : list ActionTaken.t * Py.val * Py.val :=
    let jira_story_id :=
      "AIOBS-" ++ Py.upper (Py.take 2 (Incident.id incident)) ++
      pretty (String.length (Incident.title incident)) in
    let jira_story_url := jira_browse ++ jira_story_id in
    ((actions_taken ++
      [ActionTaken.mk "jira_user_story"
         ("Jira user story created: <a href='" ++ jira_story_url ++
          "' target='_blank'>" ++ jira_story_id ++ "</a>")
         "success" None
         (Some [("user_story_id", Py.VStr jira_story_id);
                ("priority", Py.VStr "High");
                ("url", Py.VStr jira_story_url)])])%list,
     Py.VStr jira_story_id, Py.VStr jira_story_url) in
  let linked : Py.result (list ActionTaken.t * Py.val * Py.val) :=
    match ActionTaken.result jira_action with
    | Some ((_ :: _) as result) =>
        if String.eqb (ActionTaken.status jira_action) "success" then
          let jira_story_id :=
            Py.or_else (Py.get "issue_key" result)
                       (Py.get "user_story_id" result) in
          let jira_story_url :=
            Py.or_else (Py.get "issue_url" result) (Py.get "url" result) in
          let browse := Py.VStr (jira_browse ++ Py.str jira_story_id) in
          if Py.truthy jira_story_id && negb (Py.truthy jira_story_url) then
            Py.Ok (actions_taken, jira_story_id, browse)
          else if Py.truthy jira_story_url then
            inside ← Py.contains_key "atlassian.net" jira_story_url;
            Py.Ok (actions_taken, jira_story_id,
                   if (inside : bool) then jira_story_url else browse)
          else Py.Ok (actions_taken, jira_story_id, jira_story_url)
        else Py.Ok fallback
    | _ => Py.Ok fallback
    end in
  (mapping,
   '(actions_taken, jira_story_id, jira_story_url) ← linked;
   (* 2. GitHub comment *)
   let is_git :=
     String.eqb (Incident.source incident) "git"
     || String.eqb (Incident.source incident) "github_pr" in
   let actions_taken : list ActionTaken.t :=
     if github_token out && is_git then
       (actions_taken ++ [_post_github_comment out incident analysis])%list
     else if is_git then
       (actions_taken ++
        [ActionTaken.mk "github_comment"
           "Posted GitHub comment with suggested fix" "success" None
           (Some [("pr_number", Py.VStr "123");
                  ("comment_id", Py.VStr "456789")])])%list
     else actions_taken in
   (* 3. Slack notification *)
   let actions_taken : list ActionTaken.t :=
     if slack_webhook out then
       (actions_taken ++
        [_send_slack_notification out incident analysis
           jira_story_id jira_story_url])%list
     else
       (actions_taken ++
        [ActionTaken.mk "slack_notification"
           ("Slack notification sent for incident " ++ slack_link ++
            Incident.id incident ++ "</a>")
           "success" None
           (Some [("channel", Py.VStr "#devops-alerts");
                  ("message_id", Py.VStr "1234567890");
                  ("jira_story", jira_story_id)])])%list in
   (* 4. Automated rollback *)
   let actions_taken : list ActionTaken.t :=
     if String.eqb (severity_value (Incident.severity incident)) "critical"
        && negb (Qle_bool (AIAnalysis.confidence analysis) 0.8)
     then (actions_taken ++ [_trigger_rollback out incident analysis])%list
     else actions_taken in
   Py.Ok actions_taken).

(** [sync_jira_status]: mirrors the incident status onto the Jira issue;
    never raises. *)
Definition sync_jira_status (out : Outside) (mapping : gmap string Py.val)
    (incident : Incident.t) (old_status : option IncidentStatus)
  : ActionTaken.t :=
  let failed error_msg error :=
    ActionTaken.mk "jira_status_sync" error_msg "failed" None
                   (Some [("error", error)]) in
  let raised e :=
    failed ("Exception during Jira status sync: " ++ Py.exc_str e)
           (Py.VStr (Py.exc_str e)) in
  let found : Py.result Py.val :=
    match mapping !! Incident.id incident with
    | Some issue_key => Py.Ok issue_key
    | None =>
        match get_issue_key_from_incident_id out with
        | Py.Ok (Some key) => Py.Ok (Py.VStr key)
        | Py.Ok None => Py.Ok Py.VNone
        | Py.Raise e => Py.Raise e
        end
    end in
  match found with
  | Py.Raise e => raised e
  | Py.Ok issue_key =>
      if negb (Py.truthy issue_key) then
        ActionTaken.mk "jira_status_sync" "No Jira issue found to sync"
                       "skipped" None None
      else
        match update_issue_status out with
        | Py.Raise e => raised e
        | Py.Ok result =>
            if Py.truthy (Py.get "success" result) then
              let old_status_value :=
                match old_status with
                | Some s => status_value s
                | None => "unknown"
                end in
              let new_status_value := status_value (Incident.status incident) in
              ActionTaken.mk "jira_status_sync"
                ("Jira issue " ++ Py.str issue_key ++ " status synced: " ++
                 old_status_value ++ " → " ++ new_status_value)
                "completed" None
                (Some [("issue_key", issue_key);
                       ("old_status", Py.VStr old_status_value);
                       ("new_status", Py.VStr new_status_value);
                       ("jira_status", Py.get "new_status" result);
                       ("demo_mode",
                        default (Py.VBool false)
                                (Py.lookup "demo_mode" result))])
            else
              failed ("Failed to sync Jira issue " ++ Py.str issue_key ++ ": " ++
                      Py.str (default (Py.VStr "Unknown error")
                                      (Py.lookup "error" result)))
                     (Py.get "error" result)
        end
  end.

End ActionExecutor.

(* ===================================================================== *)
(** ** The server ([main.py])                                             *)
(* ===================================================================== *)

(** The module-level state: the incident store [incidents] and the
    executor's [incident_jira_mapping]. An [Incident] object is created by
    [create_incident_from_signal], stored under its id at once and from then
    on only mutated in place, so the store entry stands for the object and
    every holder of a reference sees its updates. *)
Record World := {
  incidents : gmap string Incident.t;
  incident_jira_mapping : gmap string Py.val
}.

Definition empty_world : World :=
  {| incidents := ∅; incident_jira_mapping := ∅ |}.

(** An in-place mutation of the incident object with this id. *)
Definition mutate (id : string) (f : Incident.t -> Incident.t) (w : World)
  : World :=
  {| incidents := alter f id (incidents w);
     incident_jira_mapping := incident_jira_mapping w |}.

Definition timestamp_fields : list string :=
  ["timestamp"; "detected_at"; "last_success"; "deployment_time"].

(** The body of the timestamp [try]: a string is parsed after a final [Z]
    is rewritten to [+00:00]; [None] when it does not parse. *)
Definition parse_time_str (time_str : string) : option Datetime.t :=
  Datetime.fromisoformat
    (if Py.endswith_Z time_str then Py.drop_last time_str ++ "+00:00"
     else time_str).

(** [for field in fields: if field in raw_data: ...] on a dict: the first
    field that holds a string that parses ends the loop; a field that is
    absent, not a string or not parseable is passed over. *)
Fixpoint scan_fields (fields : list string) (raw_data : Py.dict)
  : option Datetime.t :=
  match fields with
  | [] => None
  | field :: rest =>
      match Py.lookup field raw_data with
      | Some (Py.VStr time_str) =>
          match parse_time_str time_str with
          | Some t => Some t
          | None => scan_fields rest raw_data
          end
      | _ => scan_fields rest raw_data
      end
  end.

(** The same loop over [raw_data['data']], which can be any JSON value:
    [field in data] and [data[field]] raise TypeError outside the [try]. *)
Fixpoint scan_nested (fields : list string) (data : Py.val)
  : Py.result (option Datetime.t) :=
  match fields with
  | [] => Py.Ok None
  | field :: rest =>
      present ← Py.contains_key field data;
      if (present : bool) then
        time_str ← Py.subscript field data;
        match time_str with
        | Py.VStr s =>
            match parse_time_str s with
            | Some t => Py.Ok (Some t)
            | None => scan_nested rest data
            end
        | _ => scan_nested rest data
        end
      else scan_nested rest data
  end.

(** The timestamp extraction shared by both incident constructors: the
    top-level loop, then the loop over the nested [data], which overwrites
    what the first loop found. *)
Definition extract_detected_at (fields : list string) (raw_data : Py.dict)
    (now : Datetime.t) : Py.result Datetime.t :=
  let detected_at := default now (scan_fields fields raw_data) in
  match Py.lookup "data" raw_data with
  | Some data =>
      nested ← scan_nested fields data;
      Py.Ok (default detected_at nested)
  | None => Py.Ok detected_at
  end.

(** [create_incident_from_signal]; [new_id] is the fresh [uuid4] and [now]
    the clock reading. *)
Definition create_incident_from_signal (new_id : string) (now : Datetime.t)
    (signal : Signal.t) (source : string) (w : World)
  : Py.result (Incident.t * World) :=
  detected_at ←
    match Signal.raw_data signal with
    | [] => Py.Ok now
    | raw_data => extract_detected_at timestamp_fields raw_data now
    end;
  let incident :=
    Incident.mk new_id
      (Py.title source ++ " Issue Detected")
      (Signal.description signal)
      (if negb (Qle_bool (Signal.severity signal) 0.7) then HIGH else MEDIUM)
      OPEN
      source
      (Signal.raw_data signal)
      detected_at
      None None None None [] [] [] [] [] in
  Py.Ok (incident,
         {| incidents := <[new_id := incident]> (incidents w);
            incident_jira_mapping := incident_jira_mapping w |}).

(** The result dicts of the three decorative engines, as far as
    [analyze_and_act] reads them through [.get(key, default)]. *)
Record MLPrediction := {
  ml_confidence : option Q;
  ml_recommended_actions : option (list string);
  ml_insights : option (list string)
}.

Record CopadoAnalysis := {
  deployment_health_score : option Q;
  copado_optimization_actions : option (list string);
  copado_insights : option (list string)
}.

Record QuantumAnalysis := {
  quantum_confidence : option Q;
  quantum_recommendations : option (list string);
  parallel_insights : option (list string)
}.

(** Everything one run of [analyze_and_act] obtains from outside: the
    outcomes of the four gathered engine calls, of the executor's external
    calls, and the clock reading taken when the incident is resolved. *)
Record Run := {
  remote : AIAnalyzer.Remote;
  predict_incident_likelihood : Py.result MLPrediction;
  analyze_copado_ecosystem : Py.result CopadoAnalysis;
  quantum_parallel_analysis : Py.result QuantumAnalysis;
  outside : ActionExecutor.Outside;
  resolved_now : Datetime.t
}.

(** The confidence merge of [analyze_and_act]. *)
Definition merged_confidence (analysis : AIAnalysis.t) (ml : MLPrediction)
    (quantum : QuantumAnalysis) : Q :=
  Qmin 0.98
       ((AIAnalysis.confidence analysis +
         default 0.5 (ml_confidence ml) +
         default 0.5 (quantum_confidence quantum)) / 3 + 0.15)%Q.

(** The suggested-action merge of [analyze_and_act]. *)
Definition merged_actions (analysis : AIAnalysis.t) (ml : MLPrediction)
    (copado : CopadoAnalysis) (quantum : QuantumAnalysis) : list string :=
  let all_actions : list string :=
    (AIAnalysis.suggested_actions analysis ++
     default [] (ml_recommended_actions ml) ++
     default [] (copado_optimization_actions copado) ++
     default [] (quantum_recommendations quantum))%list in
  firstn 5 (Py.fromkeys all_actions).

(** "Combine insights from all analysis engines": the fields written
    between the gather and the action execution. *)
Definition merge_results (analysis : AIAnalysis.t) (ml : MLPrediction)
    (copado : CopadoAnalysis) (quantum : QuantumAnalysis) (i : Incident.t)
  : Incident.t :=
  Incident.set_suggestions
    (merged_actions analysis ml copado quantum)
    (default [] (ml_insights ml))
    (default [] (copado_insights copado))
    (default [] (parallel_insights quantum))
    (Incident.set_root_cause (AIAnalysis.root_cause analysis)
                             (merged_confidence analysis ml quantum) i).

(** The [except] handler of [analyze_and_act]. *)
Definition mark_failed (i : Incident.t) : Incident.t :=
  Incident.set_status FAILED (Incident.set_root_cause "Analysis failed" 0%Q i).

(** [asyncio.gather] over the four analysis tasks: the four results, or the
    exception of a task that raised. [analyze_incident] itself never
    raises. *)
Definition gather (run : Run) (incident : Incident.t)
  : Py.result (AIAnalysis.t * MLPrediction * CopadoAnalysis * QuantumAnalysis) :=
  let analysis := AIAnalyzer.analyze_incident (remote run) incident in
  ml_prediction ← predict_incident_likelihood run;
  copado_analysis ← analyze_copado_ecosystem run;
  quantum_analysis ← quantum_parallel_analysis run;
  Py.Ok (analysis, ml_prediction, copado_analysis, quantum_analysis).

(** First part of [analyze_and_act], up to the first [await asyncio.sleep]:
    the incident moves to IN_PROGRESS (the Jira sync result is dropped). *)
Definition begin_analysis (id : string) (w : World) : World :=
  mutate id (Incident.set_status IN_PROGRESS) w.

(** [for action in actions: ... incident_jira_mapping[incident.id] = ...] *)
Fixpoint store_jira_mapping (id : string) (actions : list ActionTaken.t)
    (mapping : gmap string Py.val) : gmap string Py.val :=
  match actions with
  | [] => mapping
  | action :: rest =>
      let mapping :=
        if String.eqb (ActionTaken.action_type action) "jira_user_story" then
          match ActionTaken.result action with
          | Some ((_ :: _) as result) =>
              if Py.truthy (Py.get "issue_key" result)
              then <[id := Py.get "issue_key" result]> mapping
              else mapping
          | _ => mapping
          end
        else mapping in
      store_jira_mapping id rest mapping
  end.

(** Second part of [analyze_and_act]: gather, merge, execute the actions and
    resolve; any exception on the way is answered by the handler. *)
Definition complete_analysis (run : Run) (id : string) (w : World) : World :=
  match incidents w !! id with
  | None => w
  | Some incident =>
      match gather run incident with
      | Py.Raise _ => mutate id mark_failed w
      | Py.Ok (analysis, ml_prediction, copado_analysis, quantum_analysis) =>
          let merge :=
            merge_results analysis ml_prediction copado_analysis
                          quantum_analysis in
          let w := mutate id merge w in
          let '(mapping, executed) :=
            ActionExecutor.execute_actions (outside run)
              (incident_jira_mapping w) (merge incident) analysis in
          let w := {| incidents := incidents w;
                      incident_jira_mapping := mapping |} in
          match executed with
          | Py.Raise _ => mutate id mark_failed w
          | Py.Ok actions =>
              let resolve i :=
                Incident.set_resolved_at (resolved_now run)
                  (Incident.set_status RESOLVED
                     (Incident.extend_actions (map ActionObj actions) i)) in
              let w := mutate id resolve w in
              {| incidents := incidents w;
                 incident_jira_mapping :=
                   store_jira_mapping id actions (incident_jira_mapping w) |}
          end
      end
  end.

Definition analyze_and_act (run : Run) (id : string) (w : World) : World :=
  complete_analysis run id (begin_analysis id w).

(** An endpoint answers with a body or raises an [HTTPException]. *)
Inductive reply (A : Type) :=
| Body (a : A)
| HTTPException (status_code : Z) (detail : string).
Arguments Body {A} a.
Arguments HTTPException {A} status_code detail.

Record StatusUpdate := {
  su_status : string;
  su_incident_id : string;
  su_old_status : string;
  su_jira_synced : bool
}.

(** [POST /incidents/{incident_id}/status/{new_status}] *)
Definition update_incident_status (now : Datetime.t) (incident_id : string)
    (new_status : string) (w : World) : World * reply StatusUpdate :=
  match incidents w !! incident_id with
  | None => (w, HTTPException 404 "Incident not found")
  | Some _ =>
      match status_of_value (Py.lower new_status) with
      | Py.Raise _ =>
          (w, HTTPException 400 ("Invalid status: " ++ new_status))
      | Py.Ok status_enum =>
          (* old_status = incident.status; incident.status = status_enum *)
          let w := mutate incident_id (Incident.set_status status_enum) w in
          let w :=
            if decide (status_enum = RESOLVED)
            then mutate incident_id (Incident.set_resolved_at now) w
            else w in
          (* old_status = incident.status, read again after the write *)
          let old_status :=
            match incidents w !! incident_id with
            | Some incident => Incident.status incident
            | None => status_enum
            end in
          let w := mutate incident_id (Incident.set_status status_enum) w in
          (w, Body {| su_status := status_value status_enum;
                      su_incident_id := incident_id;
                      su_old_status := status_value old_status;
                      su_jira_synced := true |})
      end
  end.

(** [POST /resolve/{incident_id}] *)
Definition resolve_incident (now : Datetime.t) (incident_id : string)
    (w : World) : World * reply StatusUpdate :=
  update_incident_status now incident_id "resolved" w.

(** What one webhook delivery obtains from outside. *)
Record Delivery := {
  new_id : string;
  now : Datetime.t;
  run : Run
}.

(** [process_git_event], [process_copado_event], [process_salesforce_event]:
    detect, create when anomalous, analyse; every exception is swallowed. *)
Definition process_event (analyze : WebhookPayload.t -> Py.result Signal.t)
    (source : string) (env : Delivery) (payload : WebhookPayload.t)
    (w : World) : World :=
  match analyze payload with
  | Py.Raise _ => w
  | Py.Ok signal =>
      if Signal.is_anomaly signal then
        match create_incident_from_signal (new_id env) (now env)
                                          signal source w with
        | Py.Raise _ => w
        | Py.Ok (incident, w) =>
            analyze_and_act (run env) (Incident.id incident) w
        end
      else w
  end.

Definition process_git_event :=
  process_event SignalDetector.analyze_git_event "git".

Definition process_copado_event :=
  process_event SignalDetector.analyze_copado_event "copado".

Definition process_salesforce_event :=
  process_event SignalDetector.analyze_salesforce_event "salesforce".

Inductive task :=
| ProcessGit (payload : WebhookPayload.t)
| ProcessSalesforce (payload : WebhookPayload.t).

Definition in_list (x : string) (l : list string) : bool :=
  existsb (String.eqb x) l.

(** The four webhook handlers: the world after the handler body, the
    background tasks it queued, and the response body. *)
Definition github_webhook (env : Delivery) (payload : WebhookPayload.t)
    (w : World) : World * list task * list (string * string) :=
  let w :=
    if in_list (WebhookPayload.event_type payload) ["push"; "pull_request"]
    then process_git_event env payload w
    else w in
  (w, [], [("status", "received")]).

Definition copado_webhook (env : Delivery) (payload : WebhookPayload.t)
    (w : World) : World * list task * list (string * string) :=
  let w :=
    if in_list (WebhookPayload.event_type payload)
               ["deployment_failed"; "test_failed"; "build_failed"]
    then process_copado_event env payload w
    else w in
  (w, [], [("status", "received")]).

Definition salesforce_webhook (env : Delivery) (payload : WebhookPayload.t)
    (w : World) : World * list task * list (string * string) :=
  (w, [ProcessSalesforce payload], [("status", "received")]).

Definition git_webhook (env : Delivery) (payload : WebhookPayload.t)
    (w : World) : World * list task * list (string * string) :=
  let tasks :=
    if in_list (WebhookPayload.event_type payload)
               ["push"; "pull_request"; "hotfix_commit"]
    then [ProcessGit payload]
    else [] in
  (w, tasks, [("status", "received")]).

Definition run_task (env : Delivery) (t : task) (w : World) : World :=
  match t with
  | ProcessGit payload => process_git_event env payload w
  | ProcessSalesforce payload => process_salesforce_event env payload w
  end.

Inductive endpoint := Github | Copado | Salesforce | Git.

(** One webhook request served to the end: the handler, then the background
    tasks it queued (they run after the response is fixed). *)
Definition serve_webhook (e : endpoint) (env : Delivery)
    (payload : WebhookPayload.t) (w : World)
  : World * list (string * string) :=
  let '(w, tasks, response) :=
    match e with
    | Github => github_webhook env payload w
    | Copado => copado_webhook env payload w
    | Salesforce => salesforce_webhook env payload w
    | Git => git_webhook env payload w
    end in
  (fold_left (fun w t => run_task env t w) tasks w, response).

(* ===================================================================== *)
(** ** The incident manager ([services/incident_manager.py])              *)
(* ===================================================================== *)

Module IncidentManager.

(** The field list of [IncidentManager.create_incident]. *)
Definition timestamp_fields : list string :=
  ["pr_created_at"; "timestamp"; "detected_at"; "last_success";
   "deployment_time"].

(** Lines 62-112 of [create_incident]: the timestamp extraction. The nested
    [data] is logged with [data.keys()] first, so it has to be a dict. *)
Definition create_incident_detected_at (incident_data : Py.dict)
    (now : Datetime.t) : Py.result Datetime.t :=
  let detected_at := default now (scan_fields timestamp_fields incident_data) in
  match Py.lookup "data" incident_data with
  | Some (Py.VDict data) =>
      Py.Ok (default detected_at (scan_fields timestamp_fields data))
  | Some _ => Py.Raise Py.AttributeError
  | None => Py.Ok detected_at
  end.

Definition dquote : string := String (ascii_of_nat 34) EmptyString.

(** [add_detailed_pr_comment]: nothing is recorded when the PR already has
    the label, when the answer is not 201 or when something raises;
    otherwise a dict is appended to [incident.actions_taken]. [github_repo]
    is the [GITHUB_REPO] setting and [timestamp] the formatted clock. *)
Definition add_detailed_pr_comment (pr_has_ai_analyzed_label : bool)
    (comment_post : ActionExecutor.http) (github_repo timestamp : string)
    (pr_number : Z) (incident : Incident.t) : Incident.t :=
  if pr_has_ai_analyzed_label then incident
  else
    match comment_post with
    | ActionExecutor.Response status _ =>
        if (status =? 201)%Z then
          let action : Py.dict :=
            [("type", Py.VStr "pr_comment");
             ("timestamp", Py.VStr timestamp);
             ("details",
              Py.VStr ("Added detailed analysis comment to <a href=" ++ dquote ++
                       "https://github.com/" ++ github_repo ++ "/pull/" ++
                       pretty pr_number ++ dquote ++ " target=" ++ dquote ++
                       "_blank" ++ dquote ++ ">PR #" ++ pretty pr_number ++
                       "</a>"));
             ("success", Py.VBool true)] in
          Incident.extend_actions [ActionDict action] incident
        else incident
    | ActionExecutor.Failure _ => incident
    end.

End IncidentManager.

(* ===================================================================== *)
(** ** Traces of requests                                                 *)
(* ===================================================================== *)

(** The requests and pipeline steps that touch the incident store. The two
    halves of [analyze_and_act] are also steps of their own, since other
    requests are served while the pipeline sleeps between them. *)
Inductive op :=
| Webhook (e : endpoint) (env : Delivery) (payload : WebhookPayload.t)
| UpdateStatus (now : Datetime.t) (incident_id new_status : string)
| Resolve (now : Datetime.t) (incident_id : string)
| BeginAnalysis (incident_id : string)
| CompleteAnalysis (run : Run) (incident_id : string).

Definition step (o : op) (w : World) : World :=
  match o with
  | Webhook e env payload => fst (serve_webhook e env payload w)
  | UpdateStatus now incident_id new_status =>
      fst (update_incident_status now incident_id new_status w)
  | Resolve now incident_id => fst (resolve_incident now incident_id w)
  | BeginAnalysis incident_id => begin_analysis incident_id w
  | CompleteAnalysis run incident_id => complete_analysis run incident_id w
  end.

Definition run_ops (ops : list op) (w : World) : World :=
  fold_left (fun w o => step o w) ops w.

(** The id a step would give to a new incident is not [id] (fresh UUIDs). *)
Definition fresh_for (id : string) (o : op) : Prop :=
  match o with
  | Webhook _ env _ => new_id env ≠ id
  | _ => True
  end.

(** The allow-list each webhook handler tests the event type against;
    [None] for the Salesforce handler, which has no such test. *)
Definition allow_list (e : endpoint) : option (list string) :=
  match e with
  | Github => Some ["push"; "pull_request"]
  | Copado => Some ["deployment_failed"; "test_failed"; "build_failed"]
  | Git => Some ["push"; "pull_request"; "hotfix_commit"]
  | Salesforce => None
  end.

(** What a handler does with a payload it does process. *)
Definition processed (e : endpoint) (env : Delivery)
    (payload : WebhookPayload.t) (w : World) : World :=
  match e with
  | Github | Git => process_git_event env payload w
  | Copado => process_copado_event env payload w
  | Salesforce => process_salesforce_event env payload w
  end.

(* ===================================================================== *)
(** ** Properties under test                                              *)
(* ===================================================================== *)

(** [resolved_at] is set exactly on resolved incidents. *)
Definition resolved_at_iff_resolved (w : World) : Prop :=
  ∀ id i, incidents w !! id = Some i →
          (Incident.resolved_at i ≠ None ↔ Incident.status i = RESOLVED).

(** [resolved_at] is set on every resolved incident. *)
Definition resolved_has_time (i : Incident.t) : Prop :=
  Incident.status i = RESOLVED → Incident.resolved_at i ≠ None.

(** The terminal state of a failed analysis. *)
Definition analysis_failed (i : Incident.t) : Prop :=
  Incident.root_cause i = Some "Analysis failed"
  ∧ Incident.confidence_score i = Some 0%Q
  ∧ Incident.status i = FAILED.

(** A remote-call exception always ends in the failed state. *)
Definition remote_failure_fails (run : Run) (id : string) (w : World) : Prop :=
  Py.is_ok (AIAnalyzer.call_copado_ai (remote run)) = false →
  ∃ i, incidents (analyze_and_act run id w) !! id = Some i ∧ analysis_failed i.

Definition status_in_domain (status : string) : Prop :=
  status = "success" ∨ status = "failed" ∨ status = "skipped".

Definition entry_in_domain (e : ActionEntry) : Prop :=
  ∃ status, entry_status e = Some (Py.VStr status) ∧ status_in_domain status.

(** The webhook merge read as an average over all four engines: one third
    of each score plus the boost, capped at 0.98. *)
Definition four_engine_confidence (analysis : AIAnalysis.t) (ml : MLPrediction)
    (copado : CopadoAnalysis) (quantum : QuantumAnalysis) : Q :=
  Qmin 0.98
       ((AIAnalysis.confidence analysis +
         default 0.5 (ml_confidence ml) +
         default 0.5 (deployment_health_score copado) +
         default 0.5 (quantum_confidence quantum)) / 3 + 0.15)%Q.

(** The allow-lists as the interface description gives them: push and
    pull_request for the git endpoints, the three failure events for
    CI/CD. *)
Definition described_allow_list (e : endpoint) : list string :=
  match e with
  | Github | Git => ["push"; "pull_request"]
  | Copado => ["deployment_failed"; "test_failed"; "build_failed"]
  | Salesforce => []
  end.

(** [P] holds of every stored incident. *)
Definition all_incidents (P : Incident.t → Prop)
    (m : gmap string Incident.t) : Prop :=
  ∀ id i, m !! id = Some i → P i.

(** An executor action: its type, and a status in the documented domain. *)
Definition action_of (type : string) (a : ActionTaken.t) : Prop :=
  ActionTaken.action_type a = type
  ∧ status_in_domain (ActionTaken.status a).

(** [i'] has the action log of [i] plus entries with a documented status. *)
Definition grows (i i' : Incident.t) : Prop :=
  ∃ more, Incident.actions_taken i' = (Incident.actions_taken i ++ more)%list
          ∧ Forall entry_in_domain more.

Definition store_grows (m m' : gmap string Incident.t) : Prop :=
  ∀ id i, m !! id = Some i → ∃ i', m' !! id = Some i' ∧ grows i i'.

(** The incident that [analyze_and_act] leaves in the store. *)
Definition final_incident (run : Run) (mapping : gmap string Py.val)
    (incident : Incident.t) : Incident.t :=
  let started := Incident.set_status IN_PROGRESS incident in
  match gather run started with
  | Py.Raise _ => mark_failed started
  | Py.Ok (analysis, ml, copado, quantum) =>
      let merged := merge_results analysis ml copado quantum started in
      match snd (ActionExecutor.execute_actions (outside run) mapping merged
                                                analysis) with
      | Py.Raise _ => mark_failed merged
      | Py.Ok actions =>
          Incident.set_resolved_at (resolved_now run)
            (Incident.set_status RESOLVED
               (Incident.extend_actions (map ActionObj actions) merged))
      end
  end.

(** The nested [data] of a payload is absent or a dict. *)
Definition plain_data (raw_data : Py.dict) : Prop :=
  match Py.lookup "data" raw_data with
  | None | Some (Py.VDict _) => True
  | Some _ => False
  end.

(** What [extract_detected_at] yields on such a payload. *)
Definition scanned (fields : list string) (raw_data : Py.dict)
    (now : Datetime.t) : Datetime.t :=
  let top := default now (scan_fields fields raw_data) in
  match Py.lookup "data" raw_data with
  | Some (Py.VDict data) => default top (scan_fields fields data)
  | _ => top
  end.

(** The claim read on the described allow-lists: an event type outside
    them is dropped. *)
Definition dropped_outside_described_list (e : endpoint) (env : Delivery)
    (payload : WebhookPayload.t) (w : World) : Prop :=
  in_list (WebhookPayload.event_type payload) (described_allow_list e) = false →
  fst (serve_webhook e env payload w) = w.

(** The creation time named in the round-trip example. *)
Definition jan15 : Datetime.t := Datetime.mk 2024 1 15 10 30 0 0 (Some 0%Z).

(** The manager read on the described field list. *)
Definition manager_scans_described_list (incident_data : Py.dict)
    (now : Datetime.t) : Prop :=
  IncidentManager.create_incident_detected_at incident_data now
  = Py.Ok (scanned timestamp_fields incident_data now).

(** The webhook merge read on all four engines: the stored confidence is
    their average with the boost. *)
Definition webhook_averages_four_engines (run : Run) (id : string)
    (w : World) (analysis : AIAnalysis.t) (ml : MLPrediction)
    (copado : CopadoAnalysis) (quantum : QuantumAnalysis) : Prop :=
  ∃ i c, incidents (analyze_and_act run id w) !! id = Some i
         ∧ Incident.confidence_score i = Some c
         ∧ (c == four_engine_confidence analysis ml copado quantum)%Q.

(* ===================================================================== *)
(** ** Sample inputs                                                      *)
(* ===================================================================== *)

Definition t0 : Datetime.t := Datetime.mk 2025 9 1 12 0 0 0 (Some 0%Z).
Definition t1 : Datetime.t := Datetime.mk 2025 9 1 12 0 5 0 (Some 0%Z).

Definition jira_down : ActionExecutor.Outside :=
  {| ActionExecutor.create_user_story :=
       Py.Raise (Py.Exception "Jira unreachable");
     ActionExecutor.github_token := false;
     ActionExecutor.github_comment_post :=
       ActionExecutor.Failure (Py.Exception "offline");
     ActionExecutor.slack_webhook := false;
     ActionExecutor.slack_post :=
       ActionExecutor.Failure (Py.Exception "offline");
     ActionExecutor.rollback_post :=
       ActionExecutor.Failure (Py.Exception "offline");
     ActionExecutor.get_issue_key_from_incident_id := Py.Ok None;
     ActionExecutor.update_issue_status :=
       Py.Raise (Py.Exception "Jira unreachable") |}.

Definition quiet_ml : MLPrediction :=
  {| ml_confidence := Some 0.3%Q;
     ml_recommended_actions := None;
     ml_insights := None |}.

Definition quiet_copado (score : Q) : CopadoAnalysis :=
  {| deployment_health_score := Some score;
     copado_optimization_actions := None;
     copado_insights := None |}.

Definition quiet_quantum : QuantumAnalysis :=
  {| quantum_confidence := Some 0.3%Q;
     quantum_recommendations := Some ["Implement quantum-coherent monitoring"];
     parallel_insights := None |}.

(** A run in which the remote AI call raises and everything else answers. *)
Definition remote_down : Run :=
  {| remote :=
       {| AIAnalyzer.call_copado_ai :=
            Py.Raise (Py.Exception "Copado AI API key not configured");
          AIAnalyzer.pattern_analysis :=
            {| AIAnalyzer.pattern_confidence := Some 0.3%Q |};
          AIAnalyzer.similarity_analysis :=
            {| AIAnalyzer.similarity_confidence := Some 0.2%Q;
               AIAnalyzer.similar_ids := [] |} |};
     predict_incident_likelihood := Py.Ok quiet_ml;
     analyze_copado_ecosystem := Py.Ok (quiet_copado 0.9);
     quantum_parallel_analysis := Py.Ok quiet_quantum;
     outside := jira_down;
     resolved_now := t1 |}.

(** The same run with a quantum analyzer that raises. *)
Definition quantum_down : Run :=
  {| remote := remote remote_down;
     predict_incident_likelihood := Py.Ok quiet_ml;
     analyze_copado_ecosystem := Py.Ok (quiet_copado 0.9);
     quantum_parallel_analysis := Py.Raise (Py.Exception "numpy");
     outside := jira_down;
     resolved_now := t1 |}.

Definition delivery (id : string) (r : Run) : Delivery :=
  {| new_id := id; now := t0; run := r |}.

Definition deployment_failed_payload : WebhookPayload.t :=
  WebhookPayload.mk "copado" "deployment_failed"
    [("deployment_id", Py.VStr "dep_123");
     ("environment", Py.VStr "production");
     ("error_message", Py.VStr "Deployment timeout after 30 minutes");
     ("timestamp", Py.VStr "2024-01-15T10:30:00Z")].

Definition hotfix_payload : WebhookPayload.t :=
  WebhookPayload.mk "git" "hotfix_commit"
    [("commit_message", Py.VStr "HOTFIX: patch login")].

Definition quiet_push_payload : WebhookPayload.t :=
  WebhookPayload.mk "git" "push"
    [("commits", Py.VList [Py.VDict [("message", Py.VStr "update readme")]])].

(** The store after one deployment_failed delivery with the remote AI call
    down. *)
Definition world_after_deployment : World :=
  fst (serve_webhook Copado (delivery "inc-0001" remote_down)
                     deployment_failed_payload empty_world).

(** ... then resolved by hand (it already is) and reopened through the
    status endpoint. *)
Definition world_reopened : World :=
  run_ops [Resolve t1 "inc-0001"; UpdateStatus t1 "inc-0001" "open"]
          world_after_deployment.

Definition sample_incident : Incident.t :=
  Incident.mk "inc-0002" "Github_Pr Issue Detected" "Code quality issues"
    HIGH OPEN "github_pr" [("pr_number", Py.VInt 7)] t0 None None None None
    [] [] [] [] [].

Definition opened_incident : Incident.t :=
  Incident.mk "inc-0001" "Copado Issue Detected" "Copado deployment failed"
    HIGH OPEN "copado" [("environment", Py.VStr "production")] t0
    None None None None [] [] [] [] [].

Definition world_opened : World :=
  {| incidents := {[ "inc-0001" := opened_incident ]};
     incident_jira_mapping := ∅ |}.

Definition pr_payload : Py.dict :=
  [("pr_created_at", Py.VStr "2023-06-01T08:00:00Z");
   ("timestamp", Py.VStr "2024-01-15T10:30:00Z")].

(* ===================================================================== *)
(** ** Proof tactics                                                      *)
(* ===================================================================== *)

Ltac unfold_bind := unfold mbind, result_bind, Py.bind in *.

Ltac propositional := intuition (subst; eauto; try congruence).

Ltac shape_side :=
  (split; [|split]);
  repeat first [apply Forall_nil_2 | apply Forall_cons_2]; eauto.

(* ===================================================================== *)
(** * Proofs                                                              *)
(* ===================================================================== *)
(* ===================================================================== *)
(** ** Store lemmas                                                       *)
(* ===================================================================== *)

Section Store.

Variable P : Incident.t → Prop.

Lemma all_incidents_empty : all_incidents P ∅.
Proof. intros id i H. by rewrite lookup_empty in H. Qed.

Lemma all_incidents_insert m id i :
  P i → all_incidents P m → all_incidents P (<[id := i]> m).
Proof.
  intros Hi Hm id' i' H.
  destruct (decide (id = id')) as [->|Hne].
  - rewrite lookup_insert_eq in H. by simplify_eq.
  - rewrite lookup_insert_ne in H by done. eauto.
Qed.

Lemma all_incidents_alter m id f :
  (∀ i, P i → P (f i)) → all_incidents P m → all_incidents P (alter f id m).
Proof.
  intros Hf Hm id' i' H.
  apply lookup_alter_Some in H as [(-> & i & Hi & ->)|[_ Hi]]; eauto.
Qed.

End Store.

Lemma mutate_incidents id f w :
  incidents (mutate id f w) = alter f id (incidents w).
Proof. reflexivity. Qed.

Lemma mutate_lookup id f w :
  incidents (mutate id f w) !! id = f <$> incidents w !! id.
Proof. apply lookup_alter_eq. Qed.

Lemma mutate_lookup_ne id id' f w :
  id ≠ id' → incidents (mutate id f w) !! id' = incidents w !! id'.
Proof. intros. by apply lookup_alter_ne. Qed.

(** The incidents of the store after [complete_analysis], case by case. *)
Lemma complete_analysis_incidents run id w :
  incidents (complete_analysis run id w) = incidents w
  ∨ incidents (complete_analysis run id w) = alter mark_failed id (incidents w)
  ∨ (∃ a ml c q,
       incidents (complete_analysis run id w)
       = alter mark_failed id (alter (merge_results a ml c q) id (incidents w)))
  ∨ (∃ a ml c q actions,
       incidents (complete_analysis run id w)
       = alter (λ i, Incident.set_resolved_at (resolved_now run)
                       (Incident.set_status RESOLVED
                          (Incident.extend_actions (map ActionObj actions) i)))
               id (alter (merge_results a ml c q) id (incidents w))
       ∧ ∃ mapping incident,
           snd (ActionExecutor.execute_actions (outside run) mapping incident a)
           = Py.Ok actions).
Proof.
  unfold complete_analysis.
  destruct (incidents w !! id) as [incident|]; [|by left].
  destruct (gather run incident) as [[[[a ml] c] q]|e]; [|by right; left].
  destruct (ActionExecutor.execute_actions _ _ _ _)
    as [mapping [actions|e]] eqn:Hexec.
  - do 3 right. exists a, ml, c, q, actions. split; [done|].
    eexists _, _. by rewrite Hexec.
  - right; right; left. by exists a, ml, c, q.
Qed.

(** ** The resolved-time invariant *)

Lemma set_status_keeps_time s i :
  s ≠ RESOLVED → resolved_has_time i → resolved_has_time (Incident.set_status s i).
Proof. unfold resolved_has_time. cbn. congruence. Qed.

Lemma mark_failed_has_time i : resolved_has_time (mark_failed i).
Proof. unfold resolved_has_time. cbn. congruence. Qed.

Lemma merge_results_has_time a ml c q i :
  resolved_has_time i → resolved_has_time (merge_results a ml c q i).
Proof. unfold resolved_has_time. cbn. tauto. Qed.

Lemma begin_analysis_has_time id w :
  all_incidents resolved_has_time (incidents w) →
  all_incidents resolved_has_time (incidents (begin_analysis id w)).
Proof.
  intros H. apply all_incidents_alter; [|done].
  intros i Hi. by apply set_status_keeps_time.
Qed.

Lemma complete_analysis_has_time run id w :
  all_incidents resolved_has_time (incidents w) →
  all_incidents resolved_has_time (incidents (complete_analysis run id w)).
Proof.
  intros H.
  destruct (complete_analysis_incidents run id w)
    as [->|[->|[(a & ml & c & q & ->)|(a & ml & c & q & acts & -> & _)]]].
  - done.
  - apply all_incidents_alter; [|done]. intros; apply mark_failed_has_time.
  - apply all_incidents_alter; [intros; apply mark_failed_has_time|].
    apply all_incidents_alter; [|done]. intros; by apply merge_results_has_time.
  - apply all_incidents_alter; [intros i _ _; done|].
    apply all_incidents_alter; [|done]. intros; by apply merge_results_has_time.
Qed.

Lemma update_incident_status_has_time now id new_status w :
  all_incidents resolved_has_time (incidents w) →
  all_incidents resolved_has_time
    (incidents (fst (update_incident_status now id new_status w))).
Proof.
  intros H. unfold update_incident_status.
  destruct (incidents w !! id); [|done].
  destruct (status_of_value _) as [s|]; [|done].
  cbn [fst]. rewrite mutate_incidents.
  destruct (decide (s = RESOLVED)) as [->|Hs].
  - rewrite !mutate_incidents, !alter_alter_eq.
    apply all_incidents_alter; [|done]. intros i _ _. done.
  - rewrite !mutate_incidents.
    apply all_incidents_alter; [intros; by apply set_status_keeps_time|].
    apply all_incidents_alter; [intros; by apply set_status_keeps_time|done].
Qed.

Lemma create_incident_has_time new_id now signal source w incident w' :
  create_incident_from_signal new_id now signal source w = Py.Ok (incident, w') →
  all_incidents resolved_has_time (incidents w) →
  all_incidents resolved_has_time (incidents w').
Proof.
  unfold create_incident_from_signal. intros Hc H.
  destruct (match Signal.raw_data signal with [] => _ | _ => _ end)
    as [detected_at|e]; [|discriminate Hc].
  cbn in Hc. injection Hc as <- <-. cbn.
  apply all_incidents_insert; [|done]. intros Hs. discriminate Hs.
Qed.

Lemma process_event_has_time analyze source env payload w :
  all_incidents resolved_has_time (incidents w) →
  all_incidents resolved_has_time
    (incidents (process_event analyze source env payload w)).
Proof.
  intros H. unfold process_event.
  destruct (analyze payload) as [signal|]; [|done].
  destruct (Signal.is_anomaly signal); [|done].
  destruct (create_incident_from_signal _ _ _ _ _) as [[incident w']|] eqn:Hc;
    [|done].
  apply complete_analysis_has_time, begin_analysis_has_time.
  eapply create_incident_has_time; eauto.
Qed.

(** What a served webhook does to the store and what it answers. *)
Lemma serve_webhook_world e env payload w :
  fst (serve_webhook e env payload w)
  = match allow_list e with
    | Some allowed =>
        if in_list (WebhookPayload.event_type payload) allowed
        then processed e env payload w
        else w
    | None => processed e env payload w
    end.
Proof.
  destruct e;
    unfold serve_webhook, github_webhook, copado_webhook, salesforce_webhook,
           git_webhook, allow_list, processed;
    try destruct (in_list (WebhookPayload.event_type payload) _);
    reflexivity.
Qed.

Lemma serve_webhook_response e env payload w :
  snd (serve_webhook e env payload w) = [("status", "received")].
Proof.
  destruct e;
    unfold serve_webhook, github_webhook, copado_webhook, salesforce_webhook,
           git_webhook;
    try destruct (in_list (WebhookPayload.event_type payload) _);
    reflexivity.
Qed.

Lemma processed_has_time e env payload w :
  all_incidents resolved_has_time (incidents w) →
  all_incidents resolved_has_time (incidents (processed e env payload w)).
Proof. intros H. destruct e; by apply process_event_has_time. Qed.

Lemma serve_webhook_has_time e env payload w :
  all_incidents resolved_has_time (incidents w) →
  all_incidents resolved_has_time
    (incidents (fst (serve_webhook e env payload w))).
Proof.
  intros H. rewrite serve_webhook_world.
  destruct (allow_list e) as [allowed|]; [|by apply processed_has_time].
  destruct (in_list _ allowed); [by apply processed_has_time|done].
Qed.

Lemma step_has_time o w :
  all_incidents resolved_has_time (incidents w) →
  all_incidents resolved_has_time (incidents (step o w)).
Proof.
  intros H. destruct o; cbn [step].
  - by apply serve_webhook_has_time.
  - by apply update_incident_status_has_time.
  - by apply update_incident_status_has_time.
  - by apply begin_analysis_has_time.
  - by apply complete_analysis_has_time.
Qed.

(** C1 (as amended). On every store reachable from the empty one by webhook
    deliveries, status updates, manual resolutions and the two halves of the
    analysis pipeline in any order, an incident whose status is resolved has
    [resolved_at] set. (The converse does not hold: nothing ever clears
    [resolved_at].) *)
Theorem resolved_incident_has_resolved_at (ops : list op) :
  ∀ id i, incidents (run_ops ops empty_world) !! id = Some i →
          Incident.status i = RESOLVED → Incident.resolved_at i ≠ None.
Proof.
  cut (∀ w, all_incidents resolved_has_time (incidents w) →
            all_incidents resolved_has_time (incidents (run_ops ops w))).
  { intros Hcut id i Hi. eapply (Hcut empty_world); [|exact Hi].
    apply all_incidents_empty. }
  induction ops as [|o ops IH]; intros w Hw; [done|].
  cbn. apply IH. by apply step_has_time.
Qed.

Lemma resolved_incident_has_resolved_at_witness :
  ∃ i, incidents (run_ops [Webhook Copado (delivery "inc-0001" remote_down)
                             deployment_failed_payload] empty_world)
         !! "inc-0001" = Some i
       ∧ Incident.status i = RESOLVED
       ∧ Incident.resolved_at i ≠ None.
Proof.
  eexists. split; [vm_compute; reflexivity|]. split; [reflexivity|].
  eapply (resolved_incident_has_resolved_at
            [Webhook Copado (delivery "inc-0001" remote_down)
                     deployment_failed_payload] "inc-0001").
  - vm_compute. reflexivity.
  - reflexivity.
Defined.

(** C1 (as stated) fails: an incident resolved by the pipeline and then
    moved back to open through the status endpoint keeps its
    [resolved_at]. *)
Lemma reopened_incident_keeps_resolved_at :
  ¬ resolved_at_iff_resolved world_reopened.
Proof.
  intros H.
  assert (Hl : ∃ i, incidents world_reopened !! "inc-0001" = Some i
                    ∧ Incident.status i = OPEN
                    ∧ Incident.resolved_at i = Some t1).
  { vm_compute. eexists. split; [reflexivity|]. split; reflexivity. }
  destruct Hl as (i & Hi & Hs & Hr).
  destruct (H _ _ Hi) as [Hfwd _].
  rewrite Hs, Hr in Hfwd. by discriminate Hfwd.
Qed.

(* ===================================================================== *)
(** ** The action executor                                                *)
(* ===================================================================== *)

Lemma demo_user_story_success incident analysis info :
  let a := ActionExecutor._create_demo_user_story incident analysis info in
  ActionTaken.action_type a = "jira_user_story"
  ∧ ActionTaken.status a = "success"
  ∧ ∃ binding rest, ActionTaken.result a = Some (binding :: rest).
Proof. cbn. eauto. Qed.

Lemma jira_user_story_success out mapping incident analysis :
  let a := snd (ActionExecutor._create_jira_user_story out mapping incident
                                                       analysis) in
  ActionTaken.action_type a = "jira_user_story"
  ∧ ActionTaken.status a = "success"
  ∧ ∃ binding rest, ActionTaken.result a = Some (binding :: rest).
Proof.
  unfold ActionExecutor._create_jira_user_story.
  destruct (ActionExecutor.create_user_story out) as [result|e];
    [|apply demo_user_story_success].
  destruct (Py.getitem "success" result) as [success|e];
    [|apply demo_user_story_success].
  destruct (Py.truthy success); [|apply demo_user_story_success].
  unfold ActionExecutor.jira_story_action.
  destruct (Py.getitem "issue_key" result) as [issue_key|e];
    [|apply demo_user_story_success].
  unfold_bind.
  destruct (Py.getitem "issue_url" result); [|apply demo_user_story_success].
  destruct (Py.getitem "summary" result); [|apply demo_user_story_success].
  destruct (Py.getitem "priority" result); [|apply demo_user_story_success].
  destruct (Py.getitem "description" result); [|apply demo_user_story_success].
  cbn. eauto.
Qed.

Lemma post_github_comment_action out incident analysis :
  action_of "github_comment"
            (ActionExecutor._post_github_comment out incident analysis).
Proof.
  unfold ActionExecutor._post_github_comment, action_of, status_in_domain.
  destruct (ActionExecutor._extract_pr_info _) as [[repo pr_number]|];
    [|cbn; auto].
  destruct (ActionExecutor.github_comment_post out) as [status [result|e]|e];
    try destruct (status =? 201)%Z; cbn; auto.
Qed.

Lemma send_slack_notification_action out incident analysis story_id story_url :
  action_of "slack_notification"
            (ActionExecutor._send_slack_notification out incident analysis
                                                     story_id story_url).
Proof.
  unfold ActionExecutor._send_slack_notification, action_of, status_in_domain.
  destruct (ActionExecutor.slack_post out) as [status json|e];
    try destruct (status =? 200)%Z; cbn; auto.
Qed.

Lemma trigger_rollback_action out incident analysis :
  action_of "automated_rollback"
            (ActionExecutor._trigger_rollback out incident analysis).
Proof.
  unfold ActionExecutor._trigger_rollback, action_of, status_in_domain.
  destruct (ActionExecutor.rollback_post out) as [status [result|e]|e];
    try destruct (status =? 200)%Z; cbn; auto.
Qed.

(** The shape of what [execute_actions] returns: the ticket action, then at
    most one comment action, one chat action and at most one rollback
    action. *)
Lemma execute_actions_shape out mapping incident analysis actions :
  snd (ActionExecutor.execute_actions out mapping incident analysis)
  = Py.Ok actions →
  ∃ comment chat rollback,
    actions
    = (snd (ActionExecutor._create_jira_user_story out mapping incident
                                                   analysis)
       :: comment ++ [chat] ++ rollback)%list
    ∧ Forall (action_of "github_comment") comment
    ∧ action_of "slack_notification" chat
    ∧ Forall (action_of "automated_rollback") rollback.
Proof.
  unfold ActionExecutor.execute_actions.
  pose proof (jira_user_story_success out mapping incident analysis)
    as (_ & Hstatus & binding & rest & Hresult).
  destruct (ActionExecutor._create_jira_user_story out mapping incident analysis)
    as [mapping' jira_action].
  cbn [snd] in *. rewrite Hresult, Hstatus. cbn [String.eqb Ascii.eqb Bool.eqb].
  set (story_id := Py.or_else _ _). set (story_url := Py.or_else _ _).
  intros H.
  assert (∃ url : Py.val,
    (let is_git :=
       String.eqb (Incident.source incident) "git"
       || String.eqb (Incident.source incident) "github_pr" in
     let actions_taken : list ActionTaken.t :=
       if ActionExecutor.github_token out && is_git then
         ([jira_action] ++
          [ActionExecutor._post_github_comment out incident analysis])%list
       else if is_git then
         ([jira_action] ++
          [ActionTaken.mk "github_comment"
             "Posted GitHub comment with suggested fix" "success" None
             (Some [("pr_number", Py.VStr "123");
                    ("comment_id", Py.VStr "456789")])])%list
       else [jira_action] in
     let actions_taken : list ActionTaken.t :=
       if ActionExecutor.slack_webhook out then
         (actions_taken ++
          [ActionExecutor._send_slack_notification out incident analysis
             story_id url])%list
       else
         (actions_taken ++
          [ActionTaken.mk "slack_notification"
             ("Slack notification sent for incident " ++
              ActionExecutor.slack_link ++ Incident.id incident ++ "</a>")
             "success" None
             (Some [("channel", Py.VStr "#devops-alerts");
                    ("message_id", Py.VStr "1234567890");
                    ("jira_story", story_id)])])%list in
     let actions_taken : list ActionTaken.t :=
       if String.eqb (severity_value (Incident.severity incident)) "critical"
          && negb (Qle_bool (AIAnalysis.confidence analysis) 0.8)
       then (actions_taken ++
             [ActionExecutor._trigger_rollback out incident analysis])%list
       else actions_taken in
     actions_taken) = actions) as [url <-].
  { cbn [snd] in H. unfold_bind.
    destruct (Py.truthy story_id && negb (Py.truthy story_url));
      [eexists; by injection H|].
    destruct (Py.truthy story_url); [|eexists; by injection H].
    destruct (Py.contains_key "atlassian.net" story_url) as [inside|];
      [|discriminate H].
    eexists; by injection H. }
  clear H. cbn zeta.
  pose proof (post_github_comment_action out incident analysis) as Hcomment.
  pose proof (send_slack_notification_action out incident analysis story_id url)
    as Hchat.
  pose proof (trigger_rollback_action out incident analysis) as Hrollback.
  assert (Hdemo : ∀ type description details result,
             action_of type (ActionTaken.mk type description "success"
                                            details result)).
  { intros. split; [done|]. by left. }
  destruct (ActionExecutor.github_token out && _);
    [|destruct (_ || _)];
    destruct (ActionExecutor.slack_webhook out);
    destruct (_ && negb _);
    cbn [app];
    first
      [ solve [eexists [_], _, [_]; split; [reflexivity|]; shape_side]
      | solve [eexists [_], _, []; split; [reflexivity|]; shape_side]
      | solve [eexists [], _, [_]; split; [reflexivity|]; shape_side]
      | solve [eexists [], _, []; split; [reflexivity|]; shape_side] ].
Qed.

(** C10. The ticket step of [execute_actions] always yields an action of
    type jira_user_story with status success and a non-empty result,
    whatever the Jira client answers or raises; so the fallback branch of
    [execute_actions] is never taken: the returned list starts with that
    action and holds no second ticket action. *)
Theorem jira_ticket_action_always_succeeds out mapping incident analysis :
  let ticket :=
    snd (ActionExecutor._create_jira_user_story out mapping incident
                                                analysis) in
  (ActionTaken.action_type ticket = "jira_user_story"
   ∧ ActionTaken.status ticket = "success"
   ∧ ∃ binding rest, ActionTaken.result ticket = Some (binding :: rest))
  ∧ ∀ actions,
      snd (ActionExecutor.execute_actions out mapping incident analysis)
      = Py.Ok actions →
      ∃ others,
        actions = ticket :: others
        ∧ Forall (λ a, ActionTaken.action_type a ≠ "jira_user_story") others.
Proof.
  split; [apply jira_user_story_success|].
  intros actions H.
  apply execute_actions_shape in H
    as (comment & chat & rollback & -> & Hcomment & Hchat & Hrollback).
  eexists. split; [reflexivity|].
  rewrite !Forall_app. repeat split.
  - eapply Forall_impl; [exact Hcomment|]. intros a [-> _]. discriminate.
  - apply Forall_singleton. destruct Hchat as [-> _]. discriminate.
  - eapply Forall_impl; [exact Hrollback|]. intros a [-> _]. discriminate.
Qed.

Lemma jira_ticket_action_always_succeeds_witness :
  ∃ actions,
    snd (ActionExecutor.execute_actions jira_down ∅ sample_incident
           (AIAnalyzer._fallback_analysis sample_incident))
    = Py.Ok actions
    ∧ ∃ others,
        actions
        = snd (ActionExecutor._create_jira_user_story jira_down ∅
                 sample_incident
                 (AIAnalyzer._fallback_analysis sample_incident))
          :: others
        ∧ Forall (λ a, ActionTaken.action_type a ≠ "jira_user_story") others.
Proof.
  eexists. split; [vm_compute; reflexivity|].
  apply (proj2 (jira_ticket_action_always_succeeds jira_down ∅ sample_incident
                  (AIAnalyzer._fallback_analysis sample_incident))).
  vm_compute. reflexivity.
Defined.

(* ===================================================================== *)
(** ** The action log                                                     *)
(* ===================================================================== *)

Lemma grows_refl i : grows i i.
Proof. exists []. split; [by rewrite app_nil_r|constructor]. Qed.

Lemma grows_same i i' :
  Incident.actions_taken i' = Incident.actions_taken i → grows i i'.
Proof. intros H. exists []. split; [by rewrite app_nil_r|constructor]. Qed.

Lemma grows_trans i1 i2 i3 : grows i1 i2 → grows i2 i3 → grows i1 i3.
Proof.
  intros (m1 & H1 & F1) (m2 & H2 & F2). exists (m1 ++ m2)%list.
  split; [by rewrite H2, H1, app_assoc|]. by apply Forall_app.
Qed.

Lemma store_grows_refl m : store_grows m m.
Proof. intros id i H. eauto using grows_refl. Qed.

Lemma store_grows_trans m1 m2 m3 :
  store_grows m1 m2 → store_grows m2 m3 → store_grows m1 m3.
Proof.
  intros H12 H23 id i H.
  destruct (H12 _ _ H) as (i2 & H2 & G2).
  destruct (H23 _ _ H2) as (i3 & H3 & G3).
  eauto using grows_trans.
Qed.

Lemma store_grows_alter f id m :
  (∀ i, grows i (f i)) → store_grows m (alter f id m).
Proof.
  intros Hf id' i H. destruct (decide (id = id')) as [->|Hne].
  - exists (f i). by rewrite lookup_alter_eq, H.
  - exists i. rewrite lookup_alter_ne by done. eauto using grows_refl.
Qed.

Lemma executed_statuses out mapping incident analysis actions :
  snd (ActionExecutor.execute_actions out mapping incident analysis)
  = Py.Ok actions →
  Forall (λ a, status_in_domain (ActionTaken.status a)) actions.
Proof.
  intros H.
  pose proof (jira_user_story_success out mapping incident analysis)
    as (_ & Hstatus & _).
  apply execute_actions_shape in H
    as (comment & chat & rollback & -> & Hcomment & Hchat & Hrollback).
  apply Forall_cons_2; [rewrite Hstatus; by left|].
  rewrite !Forall_app. repeat split.
  - eapply Forall_impl; [exact Hcomment|]. by intros a [_ ?].
  - apply Forall_singleton. by destruct Hchat.
  - eapply Forall_impl; [exact Hrollback|]. by intros a [_ ?].
Qed.

Lemma complete_analysis_grows run id w :
  store_grows (incidents w) (incidents (complete_analysis run id w)).
Proof.
  destruct (complete_analysis_incidents run id w)
    as [->|[->|[(a & ml & c & q & ->)
               |(a & ml & c & q & acts & -> & mapping & inc & Hexec)]]].
  - apply store_grows_refl.
  - apply store_grows_alter. intros; by apply grows_same.
  - eapply store_grows_trans; apply store_grows_alter; intros; by apply grows_same.
  - eapply store_grows_trans; apply store_grows_alter.
    + intros; by apply grows_same.
    + intros i. exists (map ActionObj acts). split; [reflexivity|].
      apply Forall_map. eapply Forall_impl; [by eapply executed_statuses|].
      intros x Hx. eexists. split; [reflexivity|exact Hx].
Qed.

Lemma process_event_grows analyze source env payload w id i :
  new_id env ≠ id →
  incidents w !! id = Some i →
  ∃ i', incidents (process_event analyze source env payload w) !! id = Some i'
        ∧ grows i i'.
Proof.
  intros Hfresh Hi. unfold process_event.
  destruct (analyze payload) as [signal|]; [|eauto using grows_refl].
  destruct (Signal.is_anomaly signal); [|eauto using grows_refl].
  destruct (create_incident_from_signal _ _ _ _ _) as [[incident w']|] eqn:Hc;
    [|eauto using grows_refl].
  assert (Hw' : incidents w' !! id = Some i).
  { unfold create_incident_from_signal in Hc. unfold_bind.
    destruct (match Signal.raw_data signal with [] => _ | _ => _ end);
      [|discriminate Hc].
    injection Hc as <- <-. cbn. by rewrite lookup_insert_ne. }
  eapply (store_grows_trans _ (incidents (begin_analysis _ w'))); [| |exact Hw'].
  - apply store_grows_alter. intros; by apply grows_same.
  - apply complete_analysis_grows.
Qed.

Lemma step_grows o w id i :
  fresh_for id o →
  incidents w !! id = Some i →
  ∃ i', incidents (step o w) !! id = Some i' ∧ grows i i'.
Proof.
  intros Hfresh Hi. destruct o as [e env payload|now iid s|now iid|iid|run iid];
    cbn [step]; cbn in Hfresh; [|clear Hfresh..].
  - rewrite serve_webhook_world.
    assert (∃ i', incidents (processed e env payload w) !! id = Some i'
                  ∧ grows i i') by (destruct e; by apply process_event_grows).
    destruct (allow_list e) as [allowed|]; [|done].
    destruct (in_list _ allowed); eauto using grows_refl.
  - revert id i Hi. change (store_grows (incidents w)
      (incidents (fst (update_incident_status now iid s w)))).
    unfold update_incident_status.
    destruct (incidents w !! iid); [|apply store_grows_refl].
    destruct (status_of_value _) as [st|]; [|apply store_grows_refl].
    cbn [fst]. destruct (decide (st = RESOLVED));
      rewrite !mutate_incidents;
      repeat (eapply store_grows_trans;
              [|apply store_grows_alter; intros; by apply grows_same]);
      apply store_grows_refl.
  - revert id i Hi. change (store_grows (incidents w)
      (incidents (fst (update_incident_status now iid "resolved" w)))).
    unfold update_incident_status.
    destruct (incidents w !! iid); [|apply store_grows_refl].
    destruct (status_of_value _) as [st|]; [|apply store_grows_refl].
    cbn [fst]. destruct (decide (st = RESOLVED));
      rewrite !mutate_incidents;
      repeat (eapply store_grows_trans;
              [|apply store_grows_alter; intros; by apply grows_same]);
      apply store_grows_refl.
  - revert id i Hi. apply store_grows_alter. intros; by apply grows_same.
  - revert id i Hi. apply complete_analysis_grows.
Qed.




(* ===================================================================== *)
(** ** The analysis pipeline                                              *)
(* ===================================================================== *)

Lemma analyze_and_act_final run id w incident :
  incidents w !! id = Some incident →
  incidents (analyze_and_act run id w) !! id
  = Some (final_incident run (incident_jira_mapping w) incident).
Proof.
  intros Hi.
  unfold analyze_and_act, complete_analysis, begin_analysis, final_incident.
  rewrite mutate_lookup, Hi. cbn [fmap option_fmap option_map].
  destruct (gather run _) as [[[[a ml] c] q]|e].
  - cbn [incident_jira_mapping begin_analysis mutate].
    destruct (ActionExecutor.execute_actions _ _ _ _) as [mapping [actions|e]];
      cbn [snd incidents mutate];
      rewrite !lookup_alter_eq, Hi; reflexivity.
  - rewrite mutate_lookup, mutate_lookup, Hi. reflexivity.
Qed.

Lemma fallback_root_cause incident :
  AIAnalysis.root_cause (AIAnalyzer._fallback_analysis incident)
  ≠ "Analysis failed".
Proof.
  unfold AIAnalyzer._fallback_analysis.
  repeat match goal with
         | |- context [if ?b then _ else _] => destruct b
         end; cbn; discriminate.
Qed.

Lemma gather_raises run incident :
  Py.is_ok (predict_incident_likelihood run)
  && Py.is_ok (analyze_copado_ecosystem run)
  && Py.is_ok (quantum_parallel_analysis run) = false →
  Py.is_ok (gather run incident) = false.
Proof.
  unfold gather. unfold_bind.
  destruct (predict_incident_likelihood run); [|done].
  destruct (analyze_copado_ecosystem run); [|done].
  destruct (quantum_parallel_analysis run); done.
Qed.

(** C2 (as amended). For an incident entering [analyze_and_act]:
    when the ML predictor, the Copado intelligence engine or the quantum
    analyzer raises, or the action execution raises, the incident ends with
    root cause "Analysis failed", confidence 0.0 and status failed; an
    exception of the remote AI call is caught inside [analyze_incident],
    which answers with the rule-based fallback analysis, and when nothing
    else raises the incident ends resolved with the fallback's root cause. *)
Theorem analysis_failure_semantics run id w incident :
  incidents w !! id = Some incident →
  let started := Incident.set_status IN_PROGRESS incident in
  let fallback := AIAnalyzer._fallback_analysis started in
  (Py.is_ok (predict_incident_likelihood run)
   && Py.is_ok (analyze_copado_ecosystem run)
   && Py.is_ok (quantum_parallel_analysis run) = false →
   ∃ i, incidents (analyze_and_act run id w) !! id = Some i
        ∧ analysis_failed i)
  ∧ (∀ analysis ml copado quantum,
       gather run started = Py.Ok (analysis, ml, copado, quantum) →
       Py.is_ok (snd (ActionExecutor.execute_actions (outside run)
                        (incident_jira_mapping w)
                        (merge_results analysis ml copado quantum started)
                        analysis)) = false →
       ∃ i, incidents (analyze_and_act run id w) !! id = Some i
            ∧ analysis_failed i)
  ∧ (Py.is_ok (AIAnalyzer.call_copado_ai (remote run)) = false →
     AIAnalyzer.analyze_incident (remote run) started = fallback
     ∧ ∀ ml copado quantum actions,
         predict_incident_likelihood run = Py.Ok ml →
         analyze_copado_ecosystem run = Py.Ok copado →
         quantum_parallel_analysis run = Py.Ok quantum →
         snd (ActionExecutor.execute_actions (outside run)
                (incident_jira_mapping w)
                (merge_results fallback ml copado quantum started) fallback)
         = Py.Ok actions →
         ∃ i, incidents (analyze_and_act run id w) !! id = Some i
              ∧ Incident.status i = RESOLVED
              ∧ Incident.root_cause i = Some (AIAnalysis.root_cause fallback)
              ∧ AIAnalysis.root_cause fallback ≠ "Analysis failed"
              ∧ Incident.confidence_score i
                = Some (merged_confidence fallback ml quantum)).
Proof.
  intros Hi started fallback.
  rewrite (analyze_and_act_final _ _ _ _ Hi). unfold final_incident.
  fold started. split; [|split].
  - intros Hraise. apply (gather_raises run started) in Hraise.
    destruct (gather run started) as [|e]; [discriminate Hraise|].
    eexists. split; [reflexivity|]. by repeat split.
  - intros analysis ml copado quantum -> Hexec.
    destruct (snd _) as [|e]; [discriminate Hexec|].
    eexists. split; [reflexivity|]. by repeat split.
  - intros Hremote.
    assert (Hfallback :
              AIAnalyzer.analyze_incident (remote run) started = fallback).
    { unfold AIAnalyzer.analyze_incident.
      destruct (AIAnalyzer.call_copado_ai (remote run)); [discriminate|done]. }
    split; [exact Hfallback|].
    intros ml copado quantum actions Hml Hcopado Hquantum Hexec.
    unfold gather. rewrite Hfallback, Hml, Hcopado, Hquantum. cbn.
    rewrite Hexec.
    eexists. split; [reflexivity|].
    repeat split. apply fallback_root_cause.
Qed.

Lemma analysis_failure_semantics_witness :
  (∃ i, incidents (analyze_and_act quantum_down "inc-0001" world_opened)
          !! "inc-0001" = Some i
        ∧ analysis_failed i)
  ∧ (∃ i, incidents (analyze_and_act remote_down "inc-0001" world_opened)
            !! "inc-0001" = Some i
          ∧ Incident.status i = RESOLVED
          ∧ Incident.root_cause i
            = Some "Fallback analysis: Copado CI/CD pipeline issue detected").
Proof.
  split.
  - apply (proj1 (analysis_failure_semantics quantum_down "inc-0001"
                    world_opened opened_incident eq_refl)).
    reflexivity.
  - destruct (proj2 (proj2 (analysis_failure_semantics remote_down "inc-0001"
                              world_opened opened_incident eq_refl))
                eq_refl) as [_ H].
    destruct (H quiet_ml (quiet_copado 0.9) quiet_quantum _
                eq_refl eq_refl eq_refl eq_refl)
      as (i & Hi & Hs & Hr & _).
    exists i. repeat split; [exact Hi|exact Hs|exact Hr].
Defined.

(** C2 (as stated) fails: with the remote AI call raising and the other
    engines answering, the incident ends resolved, with the root cause of
    the fallback analysis. *)
Lemma remote_failure_is_absorbed :
  ¬ remote_failure_fails remote_down "inc-0001" world_opened.
Proof.
  intros H. destruct (H eq_refl) as (i & Hi & Hroot & _ & _).
  rewrite (analyze_and_act_final remote_down "inc-0001" world_opened
             opened_incident eq_refl) in Hi.
  injection Hi as <-. vm_compute in Hroot. discriminate Hroot.
Qed.

(* ===================================================================== *)
(** ** The status endpoint                                                *)
(* ===================================================================== *)

(** C9. A successful status update answers with [old_status] equal to the
    requested status: the handler reads it back after the write, whatever
    the status of the stored incident was before the call. *)
Theorem old_status_reports_new_status now id new_status w w' r :
  update_incident_status now id new_status w = (w', Body r) →
  ∃ previous requested,
    incidents w !! id = Some previous
    ∧ status_of_value (Py.lower new_status) = Py.Ok requested
    ∧ su_status r = status_value requested
    ∧ su_old_status r = status_value requested.
Proof.
  unfold update_incident_status.
  destruct (incidents w !! id) as [previous|] eqn:Hi; [|discriminate].
  destruct (status_of_value _) as [requested|]; [|discriminate].
  intros [= <- <-]. exists previous, requested.
  repeat split; cbn.
  destruct (decide (requested = RESOLVED));
    rewrite ?mutate_lookup, Hi; reflexivity.
Qed.

Lemma old_status_reports_new_status_witness :
  ∃ previous r,
    incidents world_opened !! "inc-0001" = Some previous
    ∧ Incident.status previous = OPEN
    ∧ snd (update_incident_status t1 "inc-0001" "Resolved" world_opened)
      = Body r
    ∧ su_old_status r = "resolved".
Proof.
  destruct (old_status_reports_new_status t1 "inc-0001" "Resolved" world_opened
              _ _ eq_refl) as (previous & requested & Hp & Hr & _ & Ho).
  eexists previous, _. split; [exact Hp|]. split; [|split; [reflexivity|]].
  - vm_compute in Hp. injection Hp as <-. reflexivity.
  - rewrite Ho. vm_compute in Hr. injection Hr as <-. reflexivity.
Defined.

(* ===================================================================== *)
(** ** Incident creation                                                  *)
(* ===================================================================== *)

Lemma scan_nested_dict fields d :
  scan_nested fields (Py.VDict d) = Py.Ok (scan_fields fields d).
Proof.
  induction fields as [|field rest IH]; [reflexivity|].
  cbn [scan_nested scan_fields Py.contains_key Py.subscript].
  unfold_bind. unfold Py.has_key, Py.getitem.
  destruct (Py.lookup field d) as [[| | | |s| |]|]; try exact IH.
  destruct (parse_time_str s); [reflexivity|exact IH].
Qed.

Lemma extract_detected_at_plain fields raw_data now :
  plain_data raw_data →
  extract_detected_at fields raw_data now
  = Py.Ok (scanned fields raw_data now).
Proof.
  unfold plain_data, extract_detected_at, scanned.
  destruct (Py.lookup "data" raw_data) as [[| | | | | |d]|]; try done.
  intros _. by rewrite scan_nested_dict.
Qed.

Lemma create_incident_plain new_id now signal source w :
  plain_data (Signal.raw_data signal) →
  ∃ incident,
    create_incident_from_signal new_id now signal source w
    = Py.Ok (incident,
             {| incidents := <[new_id := incident]> (incidents w);
                incident_jira_mapping := incident_jira_mapping w |})
    ∧ Incident.id incident = new_id
    ∧ Incident.source incident = source
    ∧ Incident.status incident = OPEN
    ∧ Incident.resolved_at incident = None
    ∧ Incident.detected_at incident
      = scanned timestamp_fields (Signal.raw_data signal) now.
Proof.
  intros Hplain. unfold create_incident_from_signal.
  destruct (Signal.raw_data signal) as [|binding rest] eqn:Hraw.
  - eexists. split; [reflexivity|]. by repeat split.
  - rewrite (extract_detected_at_plain _ _ _ Hplain).
    eexists. split; [reflexivity|]. by repeat split.
Qed.

Lemma final_incident_id run mapping incident :
  Incident.id (final_incident run mapping incident) = Incident.id incident
  ∧ Incident.source (final_incident run mapping incident)
    = Incident.source incident.
Proof.
  unfold final_incident.
  destruct (gather run _) as [[[[a ml] c] q]|e]; [|done].
  by destruct (snd _).
Qed.



(** C3. The incident built from a signal is high when the signal's
    severity exceeds 0.7 and medium otherwise, never low or critical; a
    Copado deployment_failed event gives an anomalous signal of severity
    0.9 and hence a high incident. *)
Theorem incident_severity_from_signal :
  (∀ new_id now signal source w incident w',
     create_incident_from_signal new_id now signal source w
     = Py.Ok (incident, w') →
     ((0.7 < Signal.severity signal)%Q → Incident.severity incident = HIGH)
     ∧ ((Signal.severity signal <= 0.7)%Q →
        Incident.severity incident = MEDIUM)
     ∧ Incident.severity incident ≠ LOW
     ∧ Incident.severity incident ≠ CRITICAL)
  ∧ (∀ payload,
       WebhookPayload.event_type payload = "deployment_failed" →
       ∃ signal,
         SignalDetector.analyze_copado_event payload = Py.Ok signal
         ∧ Signal.is_anomaly signal = true
         ∧ (Signal.severity signal == 0.9)%Q
         ∧ ∀ new_id now w incident w',
             create_incident_from_signal new_id now signal "copado" w
             = Py.Ok (incident, w') →
             Incident.severity incident = HIGH).
Proof.
  assert (Hsev : ∀ new_id now signal source w incident w',
            create_incident_from_signal new_id now signal source w
            = Py.Ok (incident, w') →
            Incident.severity incident
            = if negb (Qle_bool (Signal.severity signal) 0.7)
              then HIGH else MEDIUM).
  { intros new_id now signal source w incident w'.
    unfold create_incident_from_signal. unfold_bind.
    destruct (match Signal.raw_data signal with [] => _ | _ => _ end);
      [|discriminate].
    by intros [= <- <-]. }
  split.
  - intros new_id now signal source w incident w' Hc.
    rewrite (Hsev _ _ _ _ _ _ _ Hc).
    destruct (Qle_bool (Signal.severity signal) 0.7) eqn:Hle; cbn.
    + apply Qle_bool_iff in Hle. repeat split; try done.
      intros Hlt. by apply Qlt_not_le in Hlt.
    + repeat split; try done.
      intros Hle'. apply Qle_bool_iff in Hle'. congruence.
  - intros payload Htype. eexists. split; [reflexivity|].
    split; [reflexivity|]. split; [cbn; rewrite Htype; reflexivity|].
    intros new_id now w incident w' Hc.
    apply Hsev in Hc. rewrite Hc. cbn. rewrite Htype. reflexivity.
Qed.

Lemma incident_severity_from_signal_witness :
  ∃ signal incident w',
    SignalDetector.analyze_copado_event deployment_failed_payload
    = Py.Ok signal
    ∧ create_incident_from_signal "inc-0001" t0 signal "copado" empty_world
      = Py.Ok (incident, w')
    ∧ Incident.severity incident = HIGH.
Proof.
  destruct (proj2 incident_severity_from_signal deployment_failed_payload
              eq_refl) as (signal & Hsignal & _ & _ & Hhigh).
  vm_compute in Hsignal. injection Hsignal as <-.
  eexists _, _, _. split; [reflexivity|]. split; [vm_compute; reflexivity|].
  eapply (Hhigh "inc-0001" t0 empty_world). vm_compute. reflexivity.
Defined.

(* ===================================================================== *)
(** ** Webhook ingress                                                    *)
(* ===================================================================== *)

(** C7 (as amended). Every webhook endpoint answers
    [{"status": "received"}], whatever the processing does (the answer does
    not depend on any outcome of the processing). The GitHub endpoint
    processes exactly push and pull_request, the Copado endpoint exactly
    deployment_failed, test_failed and build_failed, the git endpoint
    exactly push, pull_request and hotfix_commit, and the Salesforce
    endpoint every event type; an event type outside the endpoint's list
    leaves the store untouched, and so does a payload on which detection
    raises. *)
Theorem webhook_always_acknowledges e env payload w :
  snd (serve_webhook e env payload w) = [("status", "received")]
  ∧ (∀ env', snd (serve_webhook e env' payload w)
             = snd (serve_webhook e env payload w))
  ∧ (∀ allowed, allow_list e = Some allowed →
       in_list (WebhookPayload.event_type payload) allowed = false →
       fst (serve_webhook e env payload w) = w)
  ∧ (match allow_list e with
     | Some allowed =>
         in_list (WebhookPayload.event_type payload) allowed = true
     | None => True
     end →
     fst (serve_webhook e env payload w) = processed e env payload w)
  ∧ allow_list Github = Some ["push"; "pull_request"]
  ∧ allow_list Copado
    = Some ["deployment_failed"; "test_failed"; "build_failed"]
  ∧ allow_list Git = Some ["push"; "pull_request"; "hotfix_commit"]
  ∧ allow_list Salesforce = None
  ∧ (∀ analyze source,
       Py.is_ok (analyze payload) = false →
       process_event analyze source env payload w = w).
Proof.
  split; [apply serve_webhook_response|].
  split; [intros; by rewrite !serve_webhook_response|].
  split; [intros allowed Ha Hin; by rewrite serve_webhook_world, Ha, Hin|].
  split.
  { rewrite serve_webhook_world.
    destruct (allow_list e) as [allowed|]; [|done]. by intros ->. }
  repeat split.
  intros analyze source Hraise. unfold process_event.
  destruct (analyze payload); [discriminate Hraise|reflexivity].
Qed.

Lemma webhook_always_acknowledges_witness :
  fst (serve_webhook Copado (delivery "inc-0001" remote_down)
         (WebhookPayload.mk "copado" "deployment_completed" []) world_opened)
  = world_opened
  ∧ fst (serve_webhook Git (delivery "inc-0003" remote_down) hotfix_payload
           world_opened)
    = process_git_event (delivery "inc-0003" remote_down) hotfix_payload
                        world_opened.
Proof.
  split.
  - apply (proj1 (proj2 (proj2 (webhook_always_acknowledges Copado
             (delivery "inc-0001" remote_down)
             (WebhookPayload.mk "copado" "deployment_completed" [])
             world_opened))) _ eq_refl).
    reflexivity.
  - apply (proj1 (proj2 (proj2 (proj2 (webhook_always_acknowledges Git
             (delivery "inc-0003" remote_down) hotfix_payload
             world_opened))))).
    reflexivity.
Defined.

(** C7 (as stated) fails: hotfix_commit is neither push nor pull_request,
    yet the git endpoint processes it and an incident appears. *)
Lemma hotfix_commit_is_processed :
  ¬ dropped_outside_described_list Git (delivery "inc-0003" remote_down)
      hotfix_payload empty_world.
Proof.
  intros H. specialize (H eq_refl).
  assert (Hl : incidents (fst (serve_webhook Git
                 (delivery "inc-0003" remote_down) hotfix_payload empty_world))
               !! "inc-0003" = None).
  { rewrite H. reflexivity. }
  vm_compute in Hl. discriminate Hl.
Qed.

(* ===================================================================== *)
(** ** Timestamp extraction                                               *)
(* ===================================================================== *)

Lemma scan_fields_none fields d :
  scan_fields fields d = None
  ↔ ∀ field s, field ∈ fields → Py.lookup field d = Some (Py.VStr s) →
               parse_time_str s = None.
Proof.
  induction fields as [|f rest IH]; cbn [scan_fields].
  - split; [|done]. intros _ field s Hin. by apply elem_of_nil in Hin.
  - split.
    + intros H field s Hin Hl. apply elem_of_cons in Hin as [->|Hin].
      * rewrite Hl in H. by destruct (parse_time_str s).
      * assert (scan_fields rest d = None) as Hrest.
        { destruct (Py.lookup f d) as [[| | | |s'| |]|]; try done.
          by destruct (parse_time_str s'). }
        by eapply IH.
    + intros H.
      assert (scan_fields rest d = None) as Hrest.
      { apply IH. intros field s Hin. apply H. by right. }
      destruct (Py.lookup f d) as [[| | | |s'| |]|] eqn:Hl; try done.
      rewrite (H f s'); [done|by left|done].
Qed.

Lemma scan_fields_head field rest d s t :
  Py.lookup field d = Some (Py.VStr s) →
  parse_time_str s = Some t →
  scan_fields (field :: rest) d = Some t.
Proof. intros Hl Hp. cbn. by rewrite Hl, Hp. Qed.

Lemma scan_fields_skip field rest d :
  (∀ s, Py.lookup field d = Some (Py.VStr s) → parse_time_str s = None) →
  scan_fields (field :: rest) d = scan_fields rest d.
Proof.
  intros H. cbn. destruct (Py.lookup field d) as [[| | | |s| |]|]; try done.
  by rewrite (H s).
Qed.

Lemma parse_jan15 : parse_time_str "2024-01-15T10:30:00Z" = Some jan15.
Proof. reflexivity. Qed.




(* ===================================================================== *)
(** ** The merges                                                         *)
(* ===================================================================== *)

(** [x in seen] as the loop of [fromkeys_acc] tests it. *)
Lemma existsb_eqb_elem_of (x : string) (seen : list string) :
  existsb (String.eqb x) seen = true ↔ x ∈ seen.
Proof.
  rewrite existsb_exists. split.
  - intros (y & Hy & Heq). apply String.eqb_eq in Heq as ->.
    by apply list_elem_of_In.
  - intros H. exists x. split; [by apply list_elem_of_In|apply String.eqb_refl].
Qed.

Lemma fromkeys_acc_elem_of seen xs x :
  x ∈ Py.fromkeys_acc seen xs ↔ x ∈ xs ∧ x ∉ seen.
Proof.
  revert seen. induction xs as [|y xs IH]; intros seen; cbn.
  - split; [by intros ?%elem_of_nil|by intros [?%elem_of_nil _]].
  - destruct (existsb (String.eqb y) seen) eqn:Hy.
    + apply existsb_eqb_elem_of in Hy. rewrite IH, elem_of_cons.
      split; [propositional|]. intros [[->|?] ?]; [done|propositional].
    + assert (y ∉ seen) as Hy'.
      { intros H%existsb_eqb_elem_of. congruence. }
      rewrite elem_of_cons, IH, !elem_of_cons.
      split; [propositional|].
      intros [[->|?] ?]; [by left|].
      destruct (decide (x = y)) as [->|?]; [by left|right; propositional].
Qed.

Lemma fromkeys_acc_NoDup seen xs : NoDup (Py.fromkeys_acc seen xs).
Proof.
  revert seen. induction xs as [|y xs IH]; intros seen; cbn; [constructor|].
  destruct (existsb (String.eqb y) seen); [apply IH|].
  constructor; [|apply IH].
  rewrite fromkeys_acc_elem_of, not_elem_of_cons. propositional.
Qed.

(** Only membership in [seen] matters. *)
Lemma fromkeys_acc_ext seen seen' xs :
  (∀ x, x ∈ seen ↔ x ∈ seen') →
  Py.fromkeys_acc seen xs = Py.fromkeys_acc seen' xs.
Proof.
  revert seen seen'. induction xs as [|y xs IH]; intros seen seen' H; cbn;
    [done|].
  assert (existsb (String.eqb y) seen = existsb (String.eqb y) seen') as ->.
  { apply eq_true_iff_eq. rewrite !existsb_eqb_elem_of. apply H. }
  destruct (existsb (String.eqb y) seen'); [by apply IH|].
  f_equal. apply IH. intros x. by rewrite !elem_of_cons, H.
Qed.

Lemma fromkeys_acc_cons_seen x seen xs :
  Py.fromkeys_acc (x :: seen) xs
  = filter (λ y, y ≠ x) (Py.fromkeys_acc seen xs).
Proof.
  revert seen. induction xs as [|y xs IH]; intros seen; cbn [Py.fromkeys_acc];
    [done|].
  cbn [existsb]. destruct (String.eqb_spec y x) as [->|Hne]; cbn [orb].
  - destruct (existsb (String.eqb x) seen) eqn:Hx; [apply IH|].
    rewrite filter_cons_False by propositional.
    rewrite IH, list_filter_filter. apply list_filter_iff. tauto.
  - destruct (existsb (String.eqb y) seen) eqn:Hy; [apply IH|].
    rewrite filter_cons_True by done. f_equal.
    rewrite <- IH. apply fromkeys_acc_ext.
    intros z. rewrite !elem_of_cons. propositional.
Qed.

(** [fromkeys] keeps the first occurrence of every string, in order. *)
Lemma fromkeys_cons x xs :
  Py.fromkeys (x :: xs) = x :: filter (λ y, y ≠ x) (Py.fromkeys xs).
Proof. unfold Py.fromkeys. cbn. by rewrite fromkeys_acc_cons_seen. Qed.

Lemma fromkeys_spec xs :
  NoDup (Py.fromkeys xs) ∧ (∀ x, x ∈ Py.fromkeys xs ↔ x ∈ xs).
Proof.
  split; [apply fromkeys_acc_NoDup|].
  intros x. unfold Py.fromkeys. rewrite fromkeys_acc_elem_of.
  split; [propositional|]. intros H. split; [done|]. apply not_elem_of_nil.
Qed.

Lemma NoDup_firstn {A} n (l : list A) : NoDup l → NoDup (firstn n l).
Proof. intros H. eapply sublist_NoDup; [done|apply sublist_take]. Qed.

(** C5 (as amended). The ensemble merge [_combine_analyses] caps at 0.95 the
    sum 0.4 ai + 0.25 pattern + 0.2 prediction + 0.15 similarity of its four
    sub-analyses (defaults 0.5, 0.3, 0.6, 0.3) and keeps the first 8 distinct
    strings of the AI suggestions followed by the prevention suggestions.
    The webhook merge in [analyze_and_act] caps at 0.98 the mean of three
    scores (AI analysis, ML predictor, quantum analyzer; defaults 0.5) plus
    0.15, with no contribution of the Copado engine, and keeps the first 5
    distinct strings of the four engines' suggestion lists. Removing
    duplicates keeps every first occurrence in its place. *)
Theorem confidence_and_action_merge :
  (∀ ai pattern prediction similarity,
     let e := AIAnalyzer._combine_analyses ai pattern prediction similarity in
     (AIAnalyzer.ens_confidence e
      == Qmin 0.95
           (0.4 * default 0.5 (AIAnalyzer.ai_confidence ai)
            + 0.25 * default 0.3 (AIAnalyzer.pattern_confidence pattern)
            + 0.2 * default 0.6 (AIAnalyzer.prediction_confidence prediction)
            + 0.15 * default 0.3
                       (AIAnalyzer.similarity_confidence similarity)))%Q
     ∧ (AIAnalyzer.ens_confidence e <= 0.95)%Q
     ∧ AIAnalyzer.ens_suggested_actions e
       = firstn 8 (Py.fromkeys
                     (default [] (AIAnalyzer.ai_suggested_actions ai)
                      ++ default []
                           (AIAnalyzer.prevention_suggestions prediction))%list)
     ∧ (List.length (AIAnalyzer.ens_suggested_actions e) ≤ 8)%nat
     ∧ NoDup (AIAnalyzer.ens_suggested_actions e))
  ∧ (∀ run id w incident analysis ml copado quantum actions,
       incidents w !! id = Some incident →
       let started := Incident.set_status IN_PROGRESS incident in
       gather run started = Py.Ok (analysis, ml, copado, quantum) →
       snd (ActionExecutor.execute_actions (outside run)
              (incident_jira_mapping w)
              (merge_results analysis ml copado quantum started) analysis)
       = Py.Ok actions →
       ∃ i c,
         incidents (analyze_and_act run id w) !! id = Some i
         ∧ Incident.confidence_score i = Some c
         ∧ (c == Qmin 0.98
                   ((AIAnalysis.confidence analysis
                     + default 0.5 (ml_confidence ml)
                     + default 0.5 (quantum_confidence quantum)) / 3
                    + 0.15))%Q
         ∧ (c <= 0.98)%Q
         ∧ Incident.suggested_actions i
           = firstn 5 (Py.fromkeys
                         (AIAnalysis.suggested_actions analysis
                          ++ default [] (ml_recommended_actions ml)
                          ++ default [] (copado_optimization_actions copado)
                          ++ default [] (quantum_recommendations quantum))%list)
         ∧ (List.length (Incident.suggested_actions i) ≤ 5)%nat
         ∧ NoDup (Incident.suggested_actions i))
  ∧ (∀ xs : list string,
       Py.fromkeys [] = []
       ∧ (∀ x, Py.fromkeys (x :: xs)
               = x :: filter (λ y, y ≠ x) (Py.fromkeys xs))
       ∧ NoDup (Py.fromkeys xs)
       ∧ ∀ x, x ∈ Py.fromkeys xs ↔ x ∈ xs).
Proof.
  split; [|split].
  - intros ai pattern prediction similarity e. subst e. cbn.
    split; [|split; [|split; [|split]]].
    + apply Q.min_compat; [reflexivity|].
      unfold AIAnalyzer.combined_confidence, AIAnalyzer.weights_ai,
             AIAnalyzer.weights_pattern, AIAnalyzer.weights_prediction,
             AIAnalyzer.weights_similarity.
      ring.
    + apply Q.le_min_l.
    + reflexivity.
    + rewrite length_take. lia.
    + apply NoDup_firstn, fromkeys_spec.
  - intros run id w incident analysis ml copado quantum actions Hi started
           Hgather Hexec.
    rewrite (analyze_and_act_final _ _ _ _ Hi). unfold final_incident.
    fold started. rewrite Hgather, Hexec.
    eexists _, _. split; [reflexivity|]. cbn.
    split; [reflexivity|]. split; [reflexivity|].
    split; [apply Q.le_min_l|]. split; [reflexivity|].
    unfold merged_actions. split.
    + rewrite length_take. lia.
    + apply NoDup_firstn, fromkeys_spec.
  - intros xs. split; [reflexivity|]. split; [intros; apply fromkeys_cons|].
    apply fromkeys_spec.
Qed.

Lemma confidence_and_action_merge_witness :
  ∃ i c,
    incidents (analyze_and_act remote_down "inc-0001" world_opened)
      !! "inc-0001" = Some i
    ∧ Incident.confidence_score i = Some c
    ∧ (c <= 0.98)%Q
    ∧ (List.length (Incident.suggested_actions i) ≤ 5)%nat.
Proof.
  destruct (proj1 (proj2 confidence_and_action_merge) remote_down "inc-0001"
              world_opened opened_incident _ _ _ _ _
              eq_refl eq_refl eq_refl)
    as (i & c & Hi & Hc & _ & Hle & _ & Hlen & _).
  exists i, c. repeat split; [exact Hi|exact Hc|exact Hle|exact Hlen].
Defined.

(** C5 (as stated) fails: the stored confidence is the mean of three
    scores plus the boost, not of four; with scores 0.8 (AI), 0.3 (ML),
    0.9 (Copado) and 0.3 (quantum) it is below what four scores give. *)
Lemma copado_score_is_not_averaged :
  ¬ webhook_averages_four_engines remote_down "inc-0001" world_opened
      (AIAnalyzer._fallback_analysis
         (Incident.set_status IN_PROGRESS opened_incident))
      quiet_ml (quiet_copado 0.9) quiet_quantum.
Proof.
  intros (i & c & Hi & Hc & Heq).
  rewrite (analyze_and_act_final remote_down "inc-0001" world_opened
             opened_incident eq_refl) in Hi.
  injection Hi as <-. vm_compute in Hc. injection Hc as <-.
  vm_compute in Heq. discriminate Heq.
Qed.
